(** * DefenSys: the fraud-detection pass of [app.py]

    [detect_fraud(df)] keeps the numeric columns of a pandas frame, fits
    scikit-learn's [IsolationForest(contamination=0.1)] on them, and writes
    three columns into the frame it was given: ["Risk Score"], ["Severity"]
    and ["Status"].  The development below embeds that function together
    with the numpy and pandas operations it calls, and proves what the
    specification says about it.

    Conventions.
    - A finite float is modelled by the rational it denotes ([Finite q]);
      NaN and the two infinities are separate constructors.  Rounding error
      of the float arithmetic itself is outside the model.
    - The frame is a mutable Python object; the function is therefore a
      computation over a world holding the caller's frame and numpy's global
      random state, and it may raise.
    - scikit-learn is not part of the repository.  The isolation trees and
      their normalised anomaly score are an interface ([Estimator]); what
      [IsolationForest] does around them (shape check, [offset_],
      [decision_function], [predict]) is written out in [Module sklearn]. *)

From Stdlib Require Import String List Bool Arith ZArith QArith Qround.
From Stdlib Require Import Lia Lqa Permutation Sorted Orders Mergesort.
From Stdlib Require Import DecimalString.
Import ListNotations.

Local Open Scope string_scope.
Local Open Scope list_scope.
Local Open Scope Q_scope.

(** ** Python exceptions that can surface in [detect_fraud] *)

Inductive exn : Type :=
| ValueError (msg : string)
| KeyError (key : string)
| TypeError (msg : string).

(** ** float64 *)

Inductive float64 : Type :=
| Finite (q : Q)
| NaN
| PosInf
| NegInf.

(** [a < x] and [x <= b] for a finite bound, as IEEE comparison decides them
    (every comparison with NaN is false). *)
Definition Qltb (a b : Q) : bool := negb (Qle_bool b a).

Definition bound_lt (a : Q) (x : float64) : bool :=
  match x with
  | Finite q => Qltb a q
  | PosInf => true
  | NegInf | NaN => false
  end.

Definition le_bound (x : float64) (b : Q) : bool :=
  match x with
  | Finite q => Qle_bool q b
  | NegInf => true
  | PosInf | NaN => false
  end.

(** ** numpy *)

(** The order numpy sorts a float array by, on finite values. *)
Module QOrder <: TotalLeBool.
Definition t := Q.
Definition leb := Qle_bool.
Lemma leb_total : forall a b, leb a b = true \/ leb b a = true.
Proof.
  intros a b. unfold leb.
  destruct (Qlt_le_dec a b) as [Hab | Hba].
  - left. apply Qle_bool_iff. apply Qlt_le_weak. exact Hab.
  - right. apply Qle_bool_iff. exact Hba.
Qed.
End QOrder.

Module QSort := Sort QOrder.

Module np.

(** [np.rint]: nearest integer, halves to the even neighbour. *)
Definition rint (x : Q) : Z :=
  let f := Qfloor x in
  match Qcompare (x - inject_Z f) (1 # 2) with
  | Lt => f
  | Gt => (f + 1)%Z
  | Eq => if Z.even f then f else (f + 1)%Z
  end.

(** [np.round(x, decimals)] for [decimals >= 0]: scale, [rint], unscale. *)
Definition round (x : Q) (decimals : nat) : Q :=
  let p := inject_Z (10 ^ Z.of_nat decimals) in
  Qred (inject_Z (rint (x * p)) / p).

(** [np.where(cond, a, b)] with scalar [a] and [b]. *)
Definition where_ {A : Type} (cond : list bool) (a b : A) : list A :=
  map (fun c : bool => if c then a else b) cond.

Definition sort (a : list Q) : list Q := QSort.sort a.

(** [np.isfinite] *)
Definition isfinite (x : float64) : bool :=
  match x with
  | Finite _ => true
  | NaN | PosInf | NegInf => false
  end.

(** [np.percentile(a, q)] with the default linear interpolation: the value
    at the fractional position [(len(a) - 1) * q / 100] of the sorted
    array, between its two neighbours. *)
Definition percentile (a : list Q) (q : Q) : Q :=
  let s := sort a in
  let h := (inject_Z (Z.of_nat (length a)) - 1) * (q / 100) in
  let lo := Qfloor h in
  let g := h - inject_Z lo in
  let x0 := nth (Z.to_nat lo) s 0 in
  let x1 := nth (Nat.min (S (Z.to_nat lo)) (length a - 1)) s 0 in
  Qred (x0 + g * (x1 - x0)).

End np.

(** ** pandas *)

Module pd.

(** A column with its dtype.  [Categorical] holds a label or a missing
    value per row, which is what [pd.cut] returns. *)
Inductive Series : Type :=
| Int64 (xs : list Z)
| Float64 (xs : list float64)
| Bool (xs : list bool)
| Object (xs : list string)
| Categorical (xs : list (option string)).

Definition len (s : Series) : nat :=
  match s with
  | Int64 xs => length xs
  | Float64 xs => length xs
  | Bool xs => length xs
  | Object xs => length xs
  | Categorical xs => length xs
  end.

(** A frame: the length of its (range) index and its columns in order. *)
Record DataFrame : Type := mkDataFrame {
  index : nat;
  columns : list (string * Series)
}.

(** Is the dtype a subtype of [np.number]?  Integers and floats are;
    booleans, objects and categoricals are not. *)
Definition is_number (s : Series) : bool :=
  match s with
  | Int64 _ | Float64 _ => true
  | Bool _ | Object _ | Categorical _ => false
  end.

(** [df.select_dtypes(include=[np.number])]: a new frame over the same
    index with the numeric columns only. *)
Definition select_dtypes_number (df : DataFrame) : DataFrame :=
  {| index := index df;
     columns := filter (fun c => is_number (snd c)) (columns df) |}.

(** [df[key]] *)
Fixpoint lookup (key : string) (cols : list (string * Series)) : option Series :=
  match cols with
  | [] => None
  | (k, s) :: rest => if String.eqb k key then Some s else lookup key rest
  end.

Definition getitem (df : DataFrame) (key : string) : exn + Series :=
  match lookup key (columns df) with
  | Some s => inr s
  | None => inl (KeyError key)
  end.

(** [df[key] = value]: an existing column is replaced where it stands, a
    new one goes last. *)
Fixpoint assign (key : string) (value : Series) (cols : list (string * Series))
  : list (string * Series) :=
  match cols with
  | [] => [(key, value)]
  | (k, s) :: rest =>
      if String.eqb k key then (k, value) :: rest
      else (k, s) :: assign key value rest
  end.

(** The value must be as long as the index, else pandas raises.  (A frame
    without rows would take its index from the value instead; [detect_fraud]
    never assigns to one, [fit] having refused it.) *)
Definition setitem (df : DataFrame) (key : string) (value : Series)
  : exn + DataFrame :=
  if Nat.eqb (len value) (index df)
  then inr {| index := index df; columns := assign key value (columns df) |}
  else inl (ValueError "Length of values does not match length of index").

(** [pd.cut(x, bins, labels=labels)] on one value, with the defaults
    [right=True], [include_lowest=False]: label [i] for
    [bins[i] < x <= bins[i+1]], missing when no interval holds [x]. *)
Fixpoint cut1 (x : float64) (bins : list Q) (labels : list string)
  : option string :=
  match bins, labels with
  | lo :: ((hi :: _) as rest), l :: ls =>
      if bound_lt lo x && le_bound x hi then Some l else cut1 x rest ls
  | _, _ => None
  end.

Definition cut (x : Series) (bins : list Q) (labels : list string)
  : exn + Series :=
  match x with
  | Float64 xs => inr (Categorical (map (fun v => cut1 v bins labels) xs))
  | Int64 xs =>
      inr (Categorical (map (fun v => cut1 (Finite (inject_Z v)) bins labels) xs))
  | _ => inl (TypeError "cut needs a numeric input")
  end.

End pd.

(** ** scikit-learn *)

(** The part of the isolation forest the repository never sees: the random
    generator ([seeded s] is [np.random.RandomState(s)]), how the trees are
    grown from the training table (drawing from a random state, possibly
    refusing the table) and the normalised anomaly score
    [2 ^ (- E[h(x)] / c(psi))] they give each row of a table. *)
Record Estimator : Type := mkEstimator {
  RandomState : Type;
  seeded : Z -> RandomState;
  forest : Type;
  grow : RandomState -> pd.DataFrame -> exn + (forest * RandomState);
  anomaly_score : forest -> pd.DataFrame -> list Q
}.

Module sklearn.

Section IsolationForest.

Variable E : Estimator.

(** [IsolationForest(contamination=c, random_state=s)], not yet fitted;
    [random_state] is an integer seed or [None], its default. *)
Record IsolationForest : Type := mkIsolationForest {
  contamination : Q;
  random_state : option Z
}.

(** The fitted model: its trees and the learnt [offset_]. *)
Record Fitted : Type := mkFitted {
  estimators_ : forest E;
  offset_ : Q
}.

(** [check_array] with its default [ensure_min_samples=1] and
    [ensure_min_features=1]. *)
Definition check_array (X : pd.DataFrame) : exn + unit :=
  if Nat.eqb (pd.index X) 0
  then inl (ValueError "Found array with 0 sample(s) while a minimum of 1 is required")
  else if Nat.eqb (length (pd.columns X)) 0
  then inl (ValueError "at least one array or dtype is required")
  else inr tt.

(** [score_samples]: the opposite of the anomaly score, the lower the more
    abnormal. *)
Definition raw_scores (f : forest E) (X : pd.DataFrame) : list Q :=
  map Qopp (anomaly_score E f X).

Definition score_samples (m : Fitted) (X : pd.DataFrame) : list Q :=
  raw_scores (estimators_ m) X.

(** [check_random_state]: a generator of its own for an integer seed, the
    global one for [None]. *)
Definition check_random_state (seed : option Z) (global : RandomState E)
  : RandomState E :=
  match seed with
  | Some s => seeded E s
  | None => global
  end.

(** [fit]: validate the table, grow the trees, and, [contamination] being a
    number, set [offset_] to that percentile of the training scores.  The
    second component is the global random state afterwards, advanced only
    when the trees drew from it. *)
Definition fit (cfg : IsolationForest) (X : pd.DataFrame) (global : RandomState E)
  : exn + (Fitted * RandomState E) :=
  match check_array X with
  | inl e => inl e
  | inr _ =>
      match grow E (check_random_state (random_state cfg) global) X with
      | inl e => inl e
      | inr (f, rs') =>
          inr ({| estimators_ := f;
                  offset_ := np.percentile (raw_scores f X)
                                           (100 * contamination cfg) |},
               match random_state cfg with
               | Some _ => global
               | None => rs'
               end)
      end
  end.

(** [decision_function = score_samples - offset_]. *)
Definition decision_function (m : Fitted) (X : pd.DataFrame) : list Q :=
  map (fun s => s - offset_ m) (score_samples m X).

(** [predict]: [-1] where the decision function is negative, [+1] elsewhere. *)
Definition predict (m : Fitted) (X : pd.DataFrame) : list Z :=
  map (fun d => if Qltb d 0 then (-1)%Z else 1%Z) (decision_function m X).

(** [fit_predict(X) = fit(X).predict(X)]; the model object is fitted on
    return. *)
Definition fit_predict (cfg : IsolationForest) (X : pd.DataFrame)
  (global : RandomState E) : exn + (Fitted * list Z * RandomState E) :=
  match fit cfg X global with
  | inl e => inl e
  | inr (m, rs') => inr (m, predict m X, rs')
  end.

End IsolationForest.

End sklearn.

(** ** app.py *)

Module app.

Section Detection.

Variable E : Estimator.

(** What a call can read and write: the frame object the caller passed (the
    parameter [df] is a reference to it) and numpy's global random state,
    which an [IsolationForest] built without [random_state] draws from. *)
Record World : Type := mkWorld {
  frame : pd.DataFrame;
  np_random : RandomState E
}.

(** Computations that may raise and may change the world. *)
Definition M (A : Type) : Type := World -> (exn + A) * World.

Definition ret {A : Type} (a : A) : M A := fun w => (inr a, w).

Definition bind {A B : Type} (m : M A) (k : A -> M B) : M B :=
  fun w =>
    match m w with
    | (inl e, w') => (inl e, w')
    | (inr a, w') => k a w'
    end.

Definition lift {A : Type} (r : exn + A) : M A := fun w => (r, w).

Notation "x <- m ;; k" := (bind m (fun x => k))
  (at level 61, m at next level, right associativity).
Notation "m ;;; k" := (bind m (fun _ => k))
  (at level 61, right associativity).

(** The frame behind [df], as it is now. *)
Definition read_df : M pd.DataFrame := fun w => (inr (frame w), w).

(** [df[key] = value], in place. *)
Definition df_setitem (key : string) (value : pd.Series) : M unit :=
  fun w =>
    match pd.setitem (frame w) key value with
    | inl e => (inl e, w)
    | inr df' => (inr tt, {| frame := df'; np_random := np_random w |})
    end.

(** [df[key]] *)
Definition df_getitem (key : string) : M pd.Series :=
  fun w => (pd.getitem (frame w) key, w).

(** [model.fit_predict(X)]: draws from the global random state and leaves
    the model fitted. *)
Definition model_fit_predict (model : sklearn.IsolationForest) (X : pd.DataFrame)
  : M (sklearn.Fitted E * list Z) :=
  fun w =>
    match sklearn.fit_predict E model X (np_random w) with
    | inl e => (inl e, w)
    | inr (m, preds, rs') => (inr (m, preds), {| frame := frame w; np_random := rs' |})
    end.

(** [np.round(model.decision_function(X) * -100, 2)] *)
Definition risk_scores (m : sklearn.Fitted E) (X : pd.DataFrame) : list float64 :=
  map (fun d => Finite (np.round (d * -(100)) 2)) (sklearn.decision_function E m X).

Definition Suspicious : string := "🔴 Suspicious".
Definition Normal : string := "🟢 Normal".

(** [np.where(preds == -1, "🔴 Suspicious", "🟢 Normal")] *)
Definition status_labels (preds : list Z) : list string :=
  np.where_ (map (fun p => Z.eqb p (-1)) preds) Suspicious Normal.

(** [IsolationForest(contamination=0.1)] *)
Definition new_model : sklearn.IsolationForest :=
  sklearn.mkIsolationForest (1 # 10) None.

Definition severity_bins : list Q := [-(1); 30; 60; 9999].
Definition severity_labels : list string := ["Low"; "Medium"; "High"].

(** [detect_fraud(df)], statement by statement. *)
Definition detect_fraud : M pd.DataFrame :=
  df <- read_df ;;
  let df_numeric := pd.select_dtypes_number df in
  let model := new_model in
  fitted <- model_fit_predict model df_numeric ;;
  let (model, preds) := fitted in
  df_setitem "Risk Score" (pd.Float64 (risk_scores model df_numeric)) ;;;
  risk <- df_getitem "Risk Score" ;;
  severity <- lift (pd.cut risk severity_bins severity_labels) ;;
  df_setitem "Severity" severity ;;;
  df_setitem "Status" (pd.Object (status_labels preds)) ;;;
  read_df.

(** A call on the frame [df] with the global random state at [rs]. *)
Definition call (df : pd.DataFrame) (rs : RandomState E)
  : (exn + pd.DataFrame) * World :=
  detect_fraud {| frame := df; np_random := rs |}.

End Detection.

(** The frame a successful call leaves behind, in one expression: the three
    assignments applied in the order of the source. *)
Definition annotated (df : pd.DataFrame) (risk : list float64) (preds : list Z)
  : pd.DataFrame :=
  {| pd.index := pd.index df;
     pd.columns :=
       pd.assign "Status" (pd.Object (status_labels preds))
         (pd.assign "Severity"
            (pd.Categorical
               (map (fun v => pd.cut1 v severity_bins severity_labels) risk))
            (pd.assign "Risk Score" (pd.Float64 risk) (pd.columns df))) |}.

(** [result["Risk Score"][i]], [result["Severity"][i]] (a label or
    missing) and [result["Status"][i]]. *)
Definition risk_at (result : pd.DataFrame) (i : nat) : option float64 :=
  match pd.lookup "Risk Score" (pd.columns result) with
  | Some (pd.Float64 xs) => nth_error xs i
  | _ => None
  end.

Definition severity_at (result : pd.DataFrame) (i : nat) : option (option string) :=
  match pd.lookup "Severity" (pd.columns result) with
  | Some (pd.Categorical xs) => nth_error xs i
  | _ => None
  end.

Definition status_at (result : pd.DataFrame) (i : nat) : option string :=
  match pd.lookup "Status" (pd.columns result) with
  | Some (pd.Object xs) => nth_error xs i
  | _ => None
  end.

(** Does a float column of the frame hold a NaN or an infinity? *)
Definition has_nonfinite (df : pd.DataFrame) : bool :=
  existsb (fun c => match snd c with
                    | pd.Float64 xs => existsb (fun x => negb (np.isfinite x)) xs
                    | _ => false
                    end)
          (pd.columns df).

(** [(result["Status"] == label).sum()], the two counters of the dashboard. *)
Definition count_status (result : pd.DataFrame) (label : string) : nat :=
  match pd.lookup "Status" (pd.columns result) with
  | Some (pd.Object xs) => length (filter (String.eqb label) xs)
  | _ => 0
  end.

(** The names [detect_fraud] assigns to, and the columns of a frame under
    any other name, in order. *)
Definition result_columns : list string := ["Risk Score"; "Severity"; "Status"].

Definition other_columns (df : pd.DataFrame) : list (string * pd.Series) :=
  filter (fun c => negb (existsb (String.eqb (fst c)) result_columns))
         (pd.columns df).

End app.

(** ** Datasets that differ outside their numeric columns

    Two columns of the same name and dtype: equal when the dtype is
    numeric, whatever their values when it is not.  Two tables are then
    [equal_on_numeric_columns] when they have as many rows and their
    columns pair up this way, in order.  Neither definition refers to the
    code of [detect_fraud]. *)

Inductive same_if_numeric : string * pd.Series -> string * pd.Series -> Prop :=
| same_int64 k xs : same_if_numeric (k, pd.Int64 xs) (k, pd.Int64 xs)
| same_float64 k xs : same_if_numeric (k, pd.Float64 xs) (k, pd.Float64 xs)
| any_bool k xs ys : same_if_numeric (k, pd.Bool xs) (k, pd.Bool ys)
| any_object k xs ys : same_if_numeric (k, pd.Object xs) (k, pd.Object ys)
| any_categorical k xs ys :
    same_if_numeric (k, pd.Categorical xs) (k, pd.Categorical ys).

Definition equal_on_numeric_columns (df1 df2 : pd.DataFrame) : Prop :=
  pd.index df1 = pd.index df2 /\
  Forall2 same_if_numeric (pd.columns df1) (pd.columns df2).

(** ** More of pandas: what the pages call *)

Module pandas.

Definition head_series (n : nat) (s : pd.Series) : pd.Series :=
  match s with
  | pd.Int64 xs => pd.Int64 (firstn n xs)
  | pd.Float64 xs => pd.Float64 (firstn n xs)
  | pd.Bool xs => pd.Bool (firstn n xs)
  | pd.Object xs => pd.Object (firstn n xs)
  | pd.Categorical xs => pd.Categorical (firstn n xs)
  end.

(** [df.head(n)]: the first [n] rows. *)
Definition head (n : nat) (df : pd.DataFrame) : pd.DataFrame :=
  {| pd.index := Nat.min n (pd.index df);
     pd.columns := map (fun c => (fst c, head_series n (snd c))) (pd.columns df) |}.

Definition is_nan (x : float64) : bool :=
  match x with NaN => true | _ => false end.

Definition is_posinf (x : float64) : bool :=
  match x with PosInf => true | _ => false end.

Definition is_neginf (x : float64) : bool :=
  match x with NegInf => true | _ => false end.

Definition finite_part (xs : list float64) : list Q :=
  flat_map (fun x => match x with Finite q => [q] | _ => [] end) xs.

Definition Qsum (qs : list Q) : Q := fold_right Qplus 0 qs.

(** The mean of a float array with missing values skipped, which is the
    default of [Series.mean()]: an infinity among the values carries the
    day, two opposite ones or no value at all give NaN. *)
Definition mean_floats (xs : list float64) : float64 :=
  let ys := filter (fun x => negb (is_nan x)) xs in
  match ys with
  | [] => NaN
  | _ :: _ =>
      if existsb is_posinf ys
      then (if existsb is_neginf ys then NaN else PosInf)
      else if existsb is_neginf ys then NegInf
      else Finite (Qred (Qsum (finite_part ys)
                         / inject_Z (Z.of_nat (length ys))))
  end.

(** [s.mean()] *)
Definition mean (s : pd.Series) : exn + float64 :=
  match s with
  | pd.Float64 xs => inr (mean_floats xs)
  | pd.Int64 xs => inr (mean_floats (map (fun z => Finite (inject_Z z)) xs))
  | _ => inl (TypeError "Could not convert to numeric")
  end.

End pandas.

(** ** Streamlit *)

Module st.

(** The value a metric shows: an integer, or a float formatted by the caller
    as [f"{x:.2f}"]. *)
Inductive metric_value : Type :=
| Count (n : nat)
| Formatted2f (x : float64).

(** [px.pie(data, names=..., title=...)] *)
Inductive figure : Type :=
| pie (data : pd.DataFrame) (names : string) (title : string).

(** What the script puts on the page: one entry per Streamlit command, in
    the order of the calls.  A [with] block is entered by [form], [expander]
    or [sidebar]; what it holds follows.  A [download_button] carries the
    frame whose CSV text it offers; layout arguments such as
    [use_container_width] are left out. *)
Inductive element : Type :=
| title (body : string)
| markdown (body : string)
| caption (body : string)
| write (body : string)
| success (body : string)
| error (body : string)
| info (body : string)
| image (url : string) (width : nat)
| form (key : string)
| text_input (label : string) (type : string)
| selectbox (label : string) (options : list string)
| form_submit_button (label : string)
| toggle (label : string) (value : bool)
| file_uploader (label : string) (type : string)
| columns (n : nat)
| metric (label : string) (value : metric_value)
| expander (label : string)
| plotly_chart (fig : figure)
| dataframe (data : pd.DataFrame)
| download_button (label : string) (data : pd.DataFrame) (file_name : string)
| checkbox (label : string)
| slider (label : string) (min_value max_value value : Z)
| radio (label : string) (options : list string)
| sidebar
| set_page_config (page_title : string) (layout : string).

(** What a select widget returns: the option at the index the browser sent,
    the first one when there is none there. *)
Definition chosen (options : list string) (i : nat) : string :=
  nth i options (hd "" options).

End st.

(** [st.session_state] with the two keys the script uses.  [None] for a key
    that is not set; in [auth], [role = None] is Python's [None] and
    [user = None] a dictionary without the key ["user"]. *)
Module session_state.

Record Auth : Type := mkAuth {
  logged_in : bool;
  role : option string;
  user : option string
}.

Record t : Type := mk {
  auth : option Auth;
  history : option (list pd.DataFrame)
}.

Definition empty : t := {| auth := None; history := None |}.

(** Is a login recorded?  And the analyses kept, oldest first. *)
Definition is_logged_in (s : t) : bool :=
  match auth s with
  | Some a => logged_in a
  | None => false
  end.

Definition entries (s : t) : list pd.DataFrame :=
  match history s with
  | Some h => h
  | None => []
  end.

(** A recorded login names its user. *)
Definition names_user (s : t) : Prop :=
  forall a, auth s = Some a -> logged_in a = true -> user a <> None.

End session_state.

(** ** The pages of app.py *)

Module script.

Section Script.

Variable E : Estimator.

(** The files: what an upload is, and what [pd.read_csv] makes of a path or
    of an upload. *)
Variable UploadedFile : Type.
Variable csv_exn : Type.
Variable read_csv : string + UploadedFile -> csv_exn + pd.DataFrame.

Inductive exception : Type :=
| Py (e : exn)
| Csv (e : csv_exn)
| AttributeError (name : string).

(** What the browser and the clock supply to one run of the script. *)
Record Inputs : Type := mkInputs {
  username : string;
  password : string;
  role_index : nat;
  submit : bool;
  use_demo : bool;
  uploaded : option UploadedFile;
  nav_index : nat;
  now : string
}.

(** The state of a run: the session, the page so far, numpy's generator. *)
Record Run : Type := mkRun {
  session : session_state.t;
  page : list st.element;
  np_random : RandomState E
}.

(** A run ends normally, at [st.stop()], or in an exception. *)
Inductive outcome (A : Type) : Type :=
| Done (a : A)
| Stopped
| Raised (e : exception).

Arguments Done {A} a.
Arguments Stopped {A}.
Arguments Raised {A} e.

Definition Script (A : Type) : Type := Run -> outcome A * Run.

Definition ret {A : Type} (a : A) : Script A := fun r => (Done a, r).

Definition bind {A B : Type} (m : Script A) (k : A -> Script B) : Script B :=
  fun r =>
    match m r with
    | (Done a, r') => k a r'
    | (Stopped, r') => (Stopped, r')
    | (Raised e, r') => (Raised e, r')
    end.

Definition raise {A : Type} (e : exception) : Script A := fun r => (Raised e, r).

(** [st.stop()] *)
Definition stop {A : Type} : Script A := fun r => (Stopped, r).

Notation "x <- m ;; k" := (bind m (fun x => k))
  (at level 61, m at next level, right associativity).
Notation "m ;;; k" := (bind m (fun _ => k))
  (at level 61, right associativity).

(** A Streamlit command: it goes on the page. *)
Definition emit (e : st.element) : Script unit :=
  fun r => (Done tt, {| session := session r;
                        page := page r ++ [e];
                        np_random := np_random r |}).

Definition get_session : Script session_state.t := fun r => (Done (session r), r).

Definition put_session (s : session_state.t) : Script unit :=
  fun r => (Done tt, {| session := s; page := page r; np_random := np_random r |}).

(** [st.session_state.auth] *)
Definition session_auth : Script session_state.Auth :=
  s <- get_session ;;
  match session_state.auth s with
  | Some a => ret a
  | None => raise (AttributeError "auth")
  end.

(** [st.session_state.auth = a] *)
Definition set_auth (a : session_state.Auth) : Script unit :=
  s <- get_session ;;
  put_session {| session_state.auth := Some a;
                 session_state.history := session_state.history s |}.

Definition roles : list string := ["Admin"; "Analyst"; "Viewer"].

(** [bool(s)] for a string. *)
Definition truthy (s : string) : bool := negb (String.eqb s "").

(** [login()] *)
Definition login (i : Inputs) : Script unit :=
  s <- get_session ;;
  (match session_state.auth s with
   | None => set_auth {| session_state.logged_in := false;
                         session_state.role := None;
                         session_state.user := None |}
   | Some _ => ret tt
   end) ;;;
  a <- session_auth ;;
  if negb (session_state.logged_in a) then
    emit (st.title "🔐 Welcome to DefenSys Pro") ;;;
    emit (st.form "Login Form") ;;;
    emit (st.text_input "Username" "default") ;;;
    let user := username i in
    emit (st.text_input "Password" "password") ;;;
    let pw := password i in
    emit (st.selectbox "Select Role" roles) ;;;
    let role := st.chosen roles (role_index i) in
    emit (st.form_submit_button "Login") ;;;
    let submit := submit i in
    (if submit && truthy user && truthy pw then
       set_auth {| session_state.logged_in := true;
                   session_state.role := Some role;
                   session_state.user := Some user |} ;;;
       emit (st.success ("Logged in as " ++ user ++ " (" ++ role ++ ")"))
     else
       emit (st.error "Please enter credentials.")) ;;;
    stop
  else ret tt.

(** The credentials a run carries pass the test of [login]. *)
Definition accepted (i : Inputs) : bool :=
  submit i && truthy (username i)
  && truthy (password i).

(** What [login] records for them. *)
Definition recorded (i : Inputs) : session_state.Auth :=
  {| session_state.logged_in := true;
     session_state.role := Some (st.chosen roles (role_index i));
     session_state.user := Some (username i) |}.

Definition login_form : list st.element :=
  [st.title "🔐 Welcome to DefenSys Pro";
   st.form "Login Form";
   st.text_input "Username" "default";
   st.text_input "Password" "password";
   st.selectbox "Select Role" roles;
   st.form_submit_button "Login"].

Definition login_message (i : Inputs) : st.element :=
  if accepted i
  then st.success ("Logged in as " ++ username i ++ " ("
                   ++ st.chosen roles (role_index i) ++ ")")
  else st.error "Please enter credentials.".

(** The session [login] leaves when no login was recorded. *)
Definition after_login (i : Inputs) (s : session_state.t) : session_state.t :=
  if accepted i
  then {| session_state.auth := Some (recorded i);
          session_state.history := session_state.history s |}
  else match session_state.auth s with
       | Some _ => s
       | None =>
           {| session_state.auth :=
                Some {| session_state.logged_in := false;
                        session_state.role := None;
                        session_state.user := None |};
              session_state.history := session_state.history s |}
       end.

(** [detect_fraud(df)] inside a run: it draws from the run's generator and
    its exception, if any, ends the run. *)
Definition detect_fraud (df : pd.DataFrame) : Script pd.DataFrame :=
  fun r =>
    let (res, w) := app.call E df (np_random r) in
    let r' := {| session := session r; page := page r;
                 np_random := app.np_random E w |} in
    match res with
    | inl e => (Raised (Py e), r')
    | inr result => (Done result, r')
    end.

Definition lift_csv (x : csv_exn + pd.DataFrame) : Script pd.DataFrame :=
  match x with
  | inl e => raise (Csv e)
  | inr df => ret df
  end.

Definition lift_py {A : Type} (x : exn + A) : Script A :=
  match x with
  | inl e => raise (Py e)
  | inr a => ret a
  end.

(** [st.session_state.history.append(result)], the list created first if
    the key is not there. *)
Definition history_append (result : pd.DataFrame) : Script unit :=
  s <- get_session ;;
  let h := match session_state.history s with
           | None => []
           | Some h => h
           end in
  put_session {| session_state.auth := session_state.auth s;
                 session_state.history := Some (h ++ [result]) |}.

(** [dashboard()] *)
Definition dashboard (i : Inputs) : Script unit :=
  emit (st.title "📊 Dashboard") ;;;
  emit (st.markdown "Upload financial logs or try demo mode. Data will be analyzed using AI anomaly detection.") ;;;
  emit (st.toggle "🧪 Use Demo Data Instead" true) ;;;
  let use_demo := use_demo i in
  df <- (if use_demo then
           df <- lift_csv (read_csv (inl "sample_transaction.csv")) ;;
           ret (Some df)
         else
           emit (st.file_uploader "📤 Upload CSV File" "csv") ;;;
           match uploaded i with
           | Some f => df <- lift_csv (read_csv (inr f)) ;; ret (Some df)
           | None => ret None
           end) ;;
  match df with
  | None => ret tt
  | Some df =>
      result <- detect_fraud df ;;
      emit (st.columns 3) ;;;
      emit (st.metric "🔴 Threats"
              (st.Count (app.count_status result app.Suspicious))) ;;;
      emit (st.metric "🟢 Normal"
              (st.Count (app.count_status result app.Normal))) ;;;
      risk <- lift_py (pd.getitem result "Risk Score") ;;
      avg <- lift_py (pandas.mean risk) ;;
      emit (st.metric "📈 Avg Risk" (st.Formatted2f avg)) ;;;
      emit (st.expander "ℹ️ What is Risk Score?") ;;;
      emit (st.markdown "Risk Score is calculated using an AI model (Isolation Forest) to detect outliers in data. Higher score = more unusual behavior = more suspicious.") ;;;
      emit (st.plotly_chart (st.pie result "Severity" "Threat Severity Distribution")) ;;;
      emit (st.dataframe result) ;;;
      emit (st.download_button "📥 Download Analysis" result "defensys_report.csv") ;;;
      history_append result
  end.

(** [str(x)] where [x] is a string or [None]. *)
Definition str (x : option string) : string :=
  match x with
  | Some s => s
  | None => "None"
  end.

(** [profile()] *)
Definition profile (i : Inputs) : Script unit :=
  emit (st.title "👤 Profile") ;;;
  auth <- session_auth ;;
  user <- (match session_state.user auth with
           | Some u => ret u
           | None => raise (Py (KeyError "user"))
           end) ;;
  emit (st.write ("**Username:** " ++ user)) ;;;
  emit (st.write ("**Role:** " ++ str (session_state.role auth))) ;;;
  emit (st.write ("**Logged in at:** " ++ now i)).

(** [l[-n:]] *)
Definition last (n : nat) {A : Type} (l : list A) : list A :=
  skipn (length l - n) l.

(** [enumerate(l, start)] *)
Definition enumerate {A : Type} (l : list A) (start : nat) : list (nat * A) :=
  combine (seq start (length l)) l.

Fixpoint for_each {A : Type} (l : list A) (body : A -> Script unit) : Script unit :=
  match l with
  | [] => ret tt
  | x :: rest => body x ;;; for_each rest body
  end.

(** [str(n)] *)
Definition str_nat (n : nat) : string := NilZero.string_of_uint (Nat.to_uint n).

(** [history()] *)
Definition history : Script unit :=
  emit (st.title "📁 History") ;;;
  s <- get_session ;;
  match session_state.history s with
  | Some h =>
      for_each (enumerate (rev (last 5 h)) 1)
        (fun entry =>
           let (i, session) := entry in
           emit (st.expander ("Session " ++ str_nat i)) ;;;
           emit (st.dataframe (pandas.head 10 session)))
  | None => emit (st.info "No past sessions.")
  end.

(** [settings()] *)
Definition settings : Script unit :=
  emit (st.title "⚙️ Settings") ;;;
  emit (st.checkbox "🔁 Enable auto-refresh (coming soon)") ;;;
  emit (st.slider "Sensitivity" 0 100 50).

Definition pages (i : Inputs) : list (string * Script unit) :=
  [("Dashboard", dashboard i);
   ("Profile", profile i);
   ("History", history);
   ("Settings", settings)].

(** [pages[nav]] *)
Fixpoint page_of (nav : string) (ps : list (string * Script unit))
  : option (Script unit) :=
  match ps with
  | [] => None
  | (k, f) :: rest => if String.eqb k nav then Some f else page_of nav rest
  end.

(** [main()] *)
Definition main (i : Inputs) : Script unit :=
  login i ;;;
  emit (st.set_page_config "DefenSys Pro" "wide") ;;;
  let pages := pages i in
  emit st.sidebar ;;;
  emit (st.image "https://cdn-icons-png.flaticon.com/512/567/567203.png" 50) ;;;
  emit (st.title "DefenSys Pro") ;;;
  emit (st.radio "📂 Navigation" (map fst pages)) ;;;
  let nav := st.chosen (map fst pages) (nav_index i) in
  emit (st.markdown "---") ;;;
  emit (st.caption "Powered by AI ⚡ | vDemo") ;;;
  match page_of nav pages with
  | Some f => f
  | None => raise (Py (KeyError nav))
  end.

(** What [dashboard] reads, if anything: the demo file, or the upload. *)
Definition source (i : Inputs) : option (string + UploadedFile) :=
  if use_demo i then Some (inl "sample_transaction.csv")
  else option_map inr (uploaded i).

(** What [dashboard] shows before it reads, and once the data is scored. *)
Definition dashboard_head (i : Inputs) : list st.element :=
  [st.title "📊 Dashboard";
   st.markdown "Upload financial logs or try demo mode. Data will be analyzed using AI anomaly detection.";
   st.toggle "🧪 Use Demo Data Instead" true]
  ++ (if use_demo i then [] else [st.file_uploader "📤 Upload CSV File" "csv"]).

Definition avg_risk (result : pd.DataFrame) : float64 :=
  match pd.lookup "Risk Score" (pd.columns result) with
  | Some (pd.Float64 xs) => pandas.mean_floats xs
  | _ => NaN
  end.

Definition report (result : pd.DataFrame) : list st.element :=
  [st.columns 3;
   st.metric "🔴 Threats" (st.Count (app.count_status result app.Suspicious));
   st.metric "🟢 Normal" (st.Count (app.count_status result app.Normal));
   st.metric "📈 Avg Risk" (st.Formatted2f (avg_risk result));
   st.expander "ℹ️ What is Risk Score?";
   st.markdown "Risk Score is calculated using an AI model (Isolation Forest) to detect outliers in data. Higher score = more unusual behavior = more suspicious.";
   st.plotly_chart (st.pie result "Severity" "Threat Severity Distribution");
   st.dataframe result;
   st.download_button "📥 Download Analysis" result "defensys_report.csv"].

(** The session with one more analysis kept. *)
Definition appended (s : session_state.t) (result : pd.DataFrame) : session_state.t :=
  {| session_state.auth := session_state.auth s;
     session_state.history := Some (session_state.entries s ++ [result]) |}.

(** What [profile] shows for a recorded login. *)
Definition profile_view (i : Inputs) (a : session_state.Auth) (u : string)
  : list st.element :=
  [st.title "👤 Profile";
   st.write ("**Username:** " ++ u);
   st.write ("**Role:** " ++ str (session_state.role a));
   st.write ("**Logged in at:** " ++ now i)].

(** What [main] puts on the page before the page it dispatches to. *)
Definition chrome : list st.element :=
  [st.set_page_config "DefenSys Pro" "wide";
   st.sidebar;
   st.image "https://cdn-icons-png.flaticon.com/512/567/567203.png" 50;
   st.title "DefenSys Pro";
   st.radio "📂 Navigation" ["Dashboard"; "Profile"; "History"; "Settings"];
   st.markdown "---";
   st.caption "Powered by AI ⚡ | vDemo"].

(** The page function behind the entry of the navigation a run selects. *)
Definition selected (i : Inputs) : Script unit :=
  match nav_index i with
  | 1%nat => profile i
  | 2%nat => history
  | 3%nat => settings
  | _ => dashboard i
  end.

(** What [history] lists for a session. *)
Definition history_view (s : session_state.t) : list st.element :=
  st.title "📁 History"
  :: match session_state.history s with
     | Some h =>
         flat_map (fun entry : nat * pd.DataFrame =>
                     [st.expander ("Session " ++ str_nat (fst entry));
                      st.dataframe (pandas.head 10 (snd entry))])
                  (enumerate (rev (last 5 h)) 1)
     | None => [st.info "No past sessions."]
     end.

(** One run of the script: Streamlit executes it from the top, on an empty
    page, with the session as the last run left it. *)
Definition rerun (s : session_state.t) (rs : RandomState E) (i : Inputs)
  : outcome unit * Run :=
  main i {| session := s; page := []; np_random := rs |}.

(** A visit: one run per interaction, each on the session and the generator
    the one before left, however it ended. *)
Fixpoint visit (s : session_state.t) (rs : RandomState E) (inputs : list Inputs)
  : session_state.t * RandomState E :=
  match inputs with
  | [] => (s, rs)
  | i :: rest =>
      let r := snd (rerun s rs i) in
      visit (session r) (np_random r) rest
  end.

End Script.

Arguments Done {csv_exn A} a.
Arguments Stopped {csv_exn A}.
Arguments Raised {csv_exn A} e.
Arguments Py {csv_exn} e.
Arguments Csv {csv_exn} e.
Arguments AttributeError {csv_exn} name.
Arguments session {E} r.
Arguments page {E} r.
Arguments np_random {E} r.
Arguments mkRun {E} session page np_random.
Arguments username {UploadedFile} i.
Arguments password {UploadedFile} i.
Arguments role_index {UploadedFile} i.
Arguments submit {UploadedFile} i.
Arguments use_demo {UploadedFile} i.
Arguments uploaded {UploadedFile} i.
Arguments nav_index {UploadedFile} i.
Arguments now {UploadedFile} i.
Arguments accepted {UploadedFile} i.
Arguments source {UploadedFile} i.
Arguments dashboard_head {UploadedFile} i.
Arguments profile_view {UploadedFile} i a u.
Arguments recorded {UploadedFile} i.
Arguments login_message {UploadedFile} i.
Arguments after_login {UploadedFile} i s.

End script.

(** ** A stand-in estimator

    To evaluate the pass on concrete frames some estimator has to be plugged
    in.  This one reads the anomaly score of a row off the first column of
    the table and divides it by one more than the number of forests grown so
    far, which is all its random state records; a missing or infinite entry
    scores one half.  It refuses no table. *)

Definition as_floats (s : pd.Series) : list float64 :=
  match s with
  | pd.Int64 xs => map (fun z => Finite (inject_Z z)) xs
  | pd.Float64 xs => xs
  | _ => []
  end.

Definition first_column (X : pd.DataFrame) : list float64 :=
  match pd.columns X with
  | [] => []
  | (_, s) :: _ => as_floats s
  end.

Definition scaled_score (k : nat) (x : float64) : Q :=
  match x with
  | Finite q => Qred (q / inject_Z (Z.of_nat (S k)))
  | _ => 1 # 2
  end.

Definition first_column_scorer : Estimator :=
  {| RandomState := nat;
     seeded := Z.to_nat;
     forest := nat;
     grow := fun rs _ => inr (rs, S rs);
     anomaly_score := fun k X => map (scaled_score k) (first_column X) |}.

(** A second stand-in looks at every column of the table, as a forest
    does: a row is scored on the sum of its entries. *)




(** ** Sample frames *)

Definition demo : pd.DataFrame :=
  {| pd.index := 5;
     pd.columns :=
       [("who", pd.Object ["a"; "b"; "c"; "d"; "e"]);
        ("amount",
         pd.Float64 [Finite (40 # 100); Finite (45 # 100); Finite (50 # 100);
                     Finite (55 # 100); Finite (90 # 100)])] |}.

(** The same rows under other names. *)
Definition demo_renamed : pd.DataFrame :=
  {| pd.index := 5;
     pd.columns :=
       [("who", pd.Object ["v"; "w"; "x"; "y"; "z"]);
        ("amount",
         pd.Float64 [Finite (40 # 100); Finite (45 # 100); Finite (50 # 100);
                     Finite (55 # 100); Finite (90 # 100)])] |}.

(** A missing and an infinite amount. *)
Definition demo_nonfinite : pd.DataFrame :=
  {| pd.index := 5;
     pd.columns :=
       [("who", pd.Object ["a"; "b"; "c"; "d"; "e"]);
        ("amount",
         pd.Float64 [Finite (40 # 100); NaN; Finite (50 # 100);
                     PosInf; Finite (90 # 100)])] |}.

(** No numeric column; no row. *)
Definition demo_names_only : pd.DataFrame :=
  {| pd.index := 5;
     pd.columns := [("who", pd.Object ["a"; "b"; "c"; "d"; "e"])] |}.

Definition demo_empty : pd.DataFrame :=
  {| pd.index := 0;
     pd.columns := [("who", pd.Object []); ("amount", pd.Float64 [])] |}.

(** A thousand rows with amounts 0.001, 0.002, ..., 1.000. *)
Definition demo_thousand : pd.DataFrame :=
  {| pd.index := 1000;
     pd.columns :=
       [("amount",
         pd.Float64 (map (fun i => Finite (Z.of_nat i # 1000)) (seq 1 1000)))] |}.

(** Five rows with the same amount. *)
Definition demo_same : pd.DataFrame :=
  {| pd.index := 5;
     pd.columns := [("amount", pd.Int64 [7; 7; 7; 7; 7]%Z)] |}.

(** The frame without rows or columns. *)
Definition no_frame : pd.DataFrame := {| pd.index := 0; pd.columns := [] |}.

(** ** Stand-in files and browser inputs

    An upload is taken to be the table it parses to, and the demo file to
    hold [demo]; any other path fails to open. *)

Definition parsed (src : string + pd.DataFrame) : string + pd.DataFrame :=
  match src with
  | inl path =>
      if String.eqb path "sample_transaction.csv" then inr demo
      else inl "No such file or directory"
  | inr table => inr table
  end.

(** Ada fills in the form and submits; later she opens a page, with the
    demo data switched on. *)
Definition ada_logs_in : script.Inputs pd.DataFrame :=
  {| script.username := "ada"; script.password := "x"; script.role_index := 1;
     script.submit := true; script.use_demo := true; script.uploaded := None;
     script.nav_index := 0; script.now := "2024-01-01 09:00:00" |}.

Definition opens (nav : nat) : script.Inputs pd.DataFrame :=
  {| script.username := ""; script.password := ""; script.role_index := 0;
     script.submit := false; script.use_demo := true; script.uploaded := None;
     script.nav_index := nav; script.now := "2024-01-01 09:05:00" |}.

(** She uploads a table of her own. *)
Definition uploads (table : pd.DataFrame) : script.Inputs pd.DataFrame :=
  {| script.username := ""; script.password := ""; script.role_index := 0;
     script.submit := false; script.use_demo := false;
     script.uploaded := Some table;
     script.nav_index := 0; script.now := "2024-01-01 09:10:00" |}.

(** Her visit so far: the login, then the dashboard twice on the demo data. *)
Definition ada_visit : session_state.t * RandomState first_column_scorer :=
  script.visit first_column_scorer pd.DataFrame string parsed
    session_state.empty 0%nat [ada_logs_in; opens 0; opens 0].

(** * Properties *)

(** ** Rounding, on values *)

Example rint_half_even :
  np.rint (5 # 2) = 2%Z /\ np.rint (7 # 2) = 4%Z /\ np.rint (-(5 # 2)) = (-2)%Z.
Proof. repeat split; reflexivity. Qed.

Example round_two_decimals : np.round (-(12345 # 1000)) 2 = -(617 # 50).
Proof. reflexivity. Qed.

(** ** Frames *)

Lemma lookup_assign_same key v cols :
  pd.lookup key (pd.assign key v cols) = Some v.
Proof.
  induction cols as [| [k s] rest IH]; simpl.
  - now rewrite String.eqb_refl.
  - destruct (String.eqb k key) eqn:Hk; simpl; rewrite Hk; auto.
Qed.

Lemma lookup_assign_other key key' v cols :
  key <> key' ->
  pd.lookup key' (pd.assign key v cols) = pd.lookup key' cols.
Proof.
  intros Hne.
  induction cols as [| [k s] rest IH]; simpl.
  - destruct (String.eqb key key') eqn:Hk; auto.
    apply String.eqb_eq in Hk. contradiction.
  - destruct (String.eqb k key) eqn:Hk; simpl.
    + apply String.eqb_eq in Hk. subst k.
      destruct (String.eqb key key') eqn:Hk'; auto.
      apply String.eqb_eq in Hk'. contradiction.
    + destruct (String.eqb k key'); auto.
Qed.

(** The columns of an annotated frame. *)
Lemma annotated_risk df risk preds :
  pd.lookup "Risk Score" (pd.columns (app.annotated df risk preds))
  = Some (pd.Float64 risk).
Proof.
  unfold app.annotated; simpl.
  rewrite !lookup_assign_other by discriminate.
  apply lookup_assign_same.
Qed.

Lemma annotated_severity df risk preds :
  pd.lookup "Severity" (pd.columns (app.annotated df risk preds))
  = Some (pd.Categorical
            (map (fun v => pd.cut1 v app.severity_bins app.severity_labels) risk)).
Proof.
  unfold app.annotated; simpl.
  rewrite lookup_assign_other by discriminate.
  apply lookup_assign_same.
Qed.

Lemma annotated_status df risk preds :
  pd.lookup "Status" (pd.columns (app.annotated df risk preds))
  = Some (pd.Object (app.status_labels preds)).
Proof. unfold app.annotated; simpl. apply lookup_assign_same. Qed.

(** The severity of a row is the cut of its risk score. *)
Lemma annotated_severity_at df risk preds i :
  app.severity_at (app.annotated df risk preds) i
  = option_map (fun v => pd.cut1 v app.severity_bins app.severity_labels)
               (app.risk_at (app.annotated df risk preds) i).
Proof.
  unfold app.severity_at, app.risk_at.
  rewrite annotated_severity, annotated_risk.
  apply nth_error_map.
Qed.

(** ** The severity cut *)

Lemma Qltb_lt a b : Qltb a b = true <-> a < b.
Proof.
  unfold Qltb. rewrite negb_true_iff. split.
  - intros H. apply Qnot_le_lt. intros Hle.
    apply Qle_bool_iff in Hle. congruence.
  - intros H. destruct (Qle_bool b a) eqn:Hb; auto.
    apply Qle_bool_iff in Hb. lra.
Qed.

Lemma Qltb_ge a b : Qltb a b = false <-> b <= a.
Proof.
  unfold Qltb. rewrite negb_false_iff. apply Qle_bool_iff.
Qed.

Lemma Qle_bool_gt a b : Qle_bool a b = false <-> b < a.
Proof.
  split.
  - intros H. apply Qnot_le_lt. intros Hle.
    apply Qle_bool_iff in Hle. congruence.
  - intros H. destruct (Qle_bool a b) eqn:Hb; auto.
    apply Qle_bool_iff in Hb. lra.
Qed.

Ltac cut_cases :=
  unfold app.severity_bins, app.severity_labels; simpl;
  repeat match goal with
    | |- context [Qltb ?a ?b] =>
        let H := fresh "H" in
        destruct (Qltb a b) eqn:H;
        [apply Qltb_lt in H | apply Qltb_ge in H]
    | |- context [Qle_bool ?a ?b] =>
        let H := fresh "H" in
        destruct (Qle_bool a b) eqn:H;
        [apply Qle_bool_iff in H | apply Qle_bool_gt in H]
    end; simpl; try reflexivity; try lra.

Lemma cut_low r :
  -(1) < r <= 30 ->
  pd.cut1 (Finite r) app.severity_bins app.severity_labels = Some "Low".
Proof. intros [H1 H2]. cut_cases. Qed.

Lemma cut_medium r :
  30 < r <= 60 ->
  pd.cut1 (Finite r) app.severity_bins app.severity_labels = Some "Medium".
Proof. intros [H1 H2]. cut_cases. Qed.

Lemma cut_high r :
  60 < r <= 9999 ->
  pd.cut1 (Finite r) app.severity_bins app.severity_labels = Some "High".
Proof. intros [H1 H2]. cut_cases. Qed.

Lemma cut_missing r :
  r <= -(1) \/ 9999 < r ->
  pd.cut1 (Finite r) app.severity_bins app.severity_labels = None.
Proof. intros [H | H]; cut_cases. Qed.

(** ** What a call does, case by case *)

Section Calls.

Variable E : Estimator.

Lemma length_predict (m : sklearn.Fitted E) X :
  length (sklearn.predict E m X) = length (anomaly_score E (sklearn.estimators_ E m) X).
Proof.
  unfold sklearn.predict, sklearn.decision_function, sklearn.score_samples,
    sklearn.raw_scores.
  now rewrite !length_map.
Qed.

Lemma length_risk_scores (m : sklearn.Fitted E) X :
  length (app.risk_scores E m X) = length (anomaly_score E (sklearn.estimators_ E m) X).
Proof.
  unfold app.risk_scores, sklearn.decision_function, sklearn.score_samples,
    sklearn.raw_scores.
  now rewrite !length_map.
Qed.

Lemma length_status_labels preds :
  length (app.status_labels preds) = length preds.
Proof. unfold app.status_labels, np.where_. now rewrite !length_map. Qed.

(** The fit raises: the exception passes through, nothing is written and
    the random state is where it was. *)
Lemma call_fit_raises df rs e :
  sklearn.fit E app.new_model (pd.select_dtypes_number df) rs = inl e ->
  app.call E df rs = (inl e, app.mkWorld E df rs).
Proof.
  intros Hfit.
  unfold app.call, app.detect_fraud, app.bind, app.read_df, app.model_fit_predict,
    sklearn.fit_predict; simpl.
  now rewrite Hfit.
Qed.

(** The fit returns and there is a score per row: the three columns are
    written and the frame is returned. *)
Lemma call_returns df rs m rs' :
  sklearn.fit E app.new_model (pd.select_dtypes_number df) rs = inr (m, rs') ->
  length (anomaly_score E (sklearn.estimators_ E m) (pd.select_dtypes_number df))
    = pd.index df ->
  let X := pd.select_dtypes_number df in
  let result := app.annotated df (app.risk_scores E m X) (sklearn.predict E m X) in
  app.call E df rs = (inr result, app.mkWorld E result rs').
Proof.
  intros Hfit Hlen X result.
  unfold app.call, app.detect_fraud, app.bind, app.read_df, app.model_fit_predict,
    sklearn.fit_predict; simpl.
  fold X in Hfit |- *. rewrite Hfit.
  unfold app.df_setitem, app.df_getitem, app.lift, pd.setitem, pd.getitem; simpl.
  rewrite length_risk_scores. fold X in Hlen. rewrite Hlen, Nat.eqb_refl. simpl.
  rewrite lookup_assign_same. simpl.
  rewrite length_map, length_risk_scores, Hlen, Nat.eqb_refl. simpl.
  rewrite length_status_labels, length_predict, Hlen, Nat.eqb_refl.
  reflexivity.
Qed.

(** The fit returns but the scores do not match the index: the first
    assignment raises, before anything is written. *)
Lemma call_length_mismatch df rs m rs' :
  sklearn.fit E app.new_model (pd.select_dtypes_number df) rs = inr (m, rs') ->
  length (anomaly_score E (sklearn.estimators_ E m) (pd.select_dtypes_number df))
    <> pd.index df ->
  app.call E df rs =
    (inl (ValueError "Length of values does not match length of index"),
     app.mkWorld E df rs').
Proof.
  intros Hfit Hlen.
  unfold app.call, app.detect_fraud, app.bind, app.read_df, app.model_fit_predict,
    sklearn.fit_predict; simpl.
  rewrite Hfit.
  unfold app.df_setitem, pd.setitem; simpl.
  rewrite length_risk_scores.
  apply Nat.eqb_neq in Hlen. now rewrite Hlen.
Qed.

(** Every returning call is of the second kind. *)
Lemma call_inversion df rs result w :
  app.call E df rs = (inr result, w) ->
  exists m rs',
    sklearn.fit E app.new_model (pd.select_dtypes_number df) rs = inr (m, rs') /\
    length (anomaly_score E (sklearn.estimators_ E m) (pd.select_dtypes_number df))
      = pd.index df /\
    result = app.annotated df (app.risk_scores E m (pd.select_dtypes_number df))
                           (sklearn.predict E m (pd.select_dtypes_number df)) /\
    w = app.mkWorld E result rs'.
Proof.
  intros Hcall.
  destruct (sklearn.fit E app.new_model (pd.select_dtypes_number df) rs) as [e | [m rs']] eqn:Hfit.
  - rewrite (call_fit_raises _ _ _ Hfit) in Hcall. discriminate.
  - destruct (Nat.eq_dec
                (length (anomaly_score E (sklearn.estimators_ E m)
                           (pd.select_dtypes_number df)))
                (pd.index df)) as [Hlen | Hlen].
    + rewrite (call_returns _ _ _ _ Hfit Hlen) in Hcall.
      injection Hcall as <- <-. exists m, rs'. auto.
    + rewrite (call_length_mismatch _ _ _ _ Hfit Hlen) in Hcall. discriminate.
Qed.

End Calls.

(** ** Rounding to two decimals *)

Lemma rint_le_Z x k : x <= inject_Z k -> (np.rint x <= k)%Z.
Proof.
  intros Hx. unfold np.rint.
  pose proof (Qfloor_le x) as Hlo.
  assert (Hfk : (Qfloor x <= k)%Z) by (rewrite Zle_Qle; lra).
  destruct (Qcompare (x - inject_Z (Qfloor x)) (1 # 2)) eqn:Hc.
  - apply Qeq_alt in Hc.
    assert (Hlt : (Qfloor x < k)%Z) by (rewrite Zlt_Qlt; lra).
    destruct (Z.even (Qfloor x)); lia.
  - exact Hfk.
  - apply Qgt_alt in Hc.
    assert (Hlt : (Qfloor x < k)%Z) by (rewrite Zlt_Qlt; lra).
    lia.
Qed.

Lemma rint_ge_Z x k : inject_Z k <= x -> (k <= np.rint x)%Z.
Proof.
  intros Hx. unfold np.rint.
  assert (Hfk : (k <= Qfloor x)%Z).
  { rewrite <- (Qfloor_Z k). now apply Qfloor_resp_le. }
  destruct (Qcompare (x - inject_Z (Qfloor x)) (1 # 2));
    [destruct (Z.even (Qfloor x)) | |]; lia.
Qed.

Lemma round2_value x : np.round x 2 == inject_Z (np.rint (x * 100)) / 100.
Proof. unfold np.round. now rewrite Qred_correct. Qed.

Lemma round2_le x k : x <= inject_Z k -> np.round x 2 <= inject_Z k.
Proof.
  intros Hx. rewrite round2_value.
  assert (H : (np.rint (x * 100) <= k * 100)%Z).
  { apply rint_le_Z. rewrite inject_Z_mult. change (inject_Z 100) with 100. lra. }
  rewrite Zle_Qle in H. rewrite inject_Z_mult in H. change (inject_Z 100) with 100 in H.
  apply Qle_shift_div_r; lra.
Qed.

Lemma round2_ge x k : inject_Z k <= x -> inject_Z k <= np.round x 2.
Proof.
  intros Hx. rewrite round2_value.
  assert (H : (k * 100 <= np.rint (x * 100))%Z).
  { apply rint_ge_Z. rewrite inject_Z_mult. change (inject_Z 100) with 100. lra. }
  rewrite Zle_Qle in H. rewrite inject_Z_mult in H. change (inject_Z 100) with 100 in H.
  apply Qle_shift_div_l; lra.
Qed.

(** Numerically equal arguments round to the same number. *)
Lemma rint_comp x y : x == y -> np.rint x = np.rint y.
Proof.
  intros H. unfold np.rint. rewrite (Qfloor_comp x y H).
  assert (Hc : Qcompare (x - inject_Z (Qfloor y)) (1 # 2)
               = Qcompare (y - inject_Z (Qfloor y)) (1 # 2)).
  { apply Qcompare_comp; [now rewrite H | reflexivity]. }
  now rewrite Hc.
Qed.

Lemma round_comp x y d : x == y -> np.round x d = np.round y d.
Proof.
  intros H. unfold np.round. apply Qred_complete.
  set (p := inject_Z (10 ^ Z.of_nat d)).
  assert (Hr : np.rint (x * p) = np.rint (y * p)).
  { apply rint_comp. now rewrite H. }
  now rewrite Hr.
Qed.

(** ** The rows of a returned frame *)

Section Rows.

Variable E : Estimator.
Variable m : sklearn.Fitted E.
Variable df : pd.DataFrame.

Let X := pd.select_dtypes_number df.
Let result := app.annotated df (app.risk_scores E m X) (sklearn.predict E m X).

Lemma row_risk i :
  app.risk_at result i
  = option_map (fun d => Finite (np.round (d * -(100)) 2))
               (nth_error (sklearn.decision_function E m X) i).
Proof.
  unfold app.risk_at, result. rewrite annotated_risk.
  unfold app.risk_scores. apply nth_error_map.
Qed.

Lemma row_status i :
  app.status_at result i
  = option_map (fun d => if Qltb d 0 then app.Suspicious else app.Normal)
               (nth_error (sklearn.decision_function E m X) i).
Proof.
  unfold app.status_at, result. rewrite annotated_status.
  unfold app.status_labels, np.where_, sklearn.predict.
  rewrite !map_map, nth_error_map.
  destruct (nth_error (sklearn.decision_function E m X) i) as [d |]; simpl; auto.
  now destruct (Qltb d 0).
Qed.

Lemma row_decision i :
  nth_error (sklearn.decision_function E m X) i
  = option_map (fun s => - s - sklearn.offset_ E m)
               (nth_error (anomaly_score E (sklearn.estimators_ E m) X) i).
Proof.
  unfold sklearn.decision_function, sklearn.score_samples, sklearn.raw_scores.
  rewrite map_map. apply nth_error_map.
Qed.

End Rows.

(** ** The percentile that sets [offset_] *)

Section Counting.

Variable p : Q -> bool.

Lemma count_permutation (l l' : list Q) :
  Permutation l l' -> length (filter p l) = length (filter p l').
Proof.
  induction 1 as [| x l l' _ IH | x y l | l l' l'' _ IH1 _ IH2]; simpl.
  - reflexivity.
  - destruct (p x); simpl; now rewrite IH.
  - destruct (p x), (p y); reflexivity.
  - now rewrite IH1.
Qed.

(** A list whose first [k] entries pass [p] and whose other entries fail it
    has [k] entries that pass. *)
Lemma count_prefix (s : list Q) :
  forall k,
    (k <= length s)%nat ->
    (forall i, (i < k)%nat -> p (nth i s 0) = true) ->
    (forall i, (k <= i)%nat -> (i < length s)%nat -> p (nth i s 0) = false) ->
    length (filter p s) = k.
Proof.
  induction s as [| a s IH]; intros k Hk Htrue Hfalse; simpl in *.
  - lia.
  - destruct k as [| k].
    + rewrite (Hfalse 0%nat) by lia.
      apply IH; [lia | intros; lia |].
      intros i Hi Hlt. apply (Hfalse (S i)); lia.
    + rewrite (Htrue 0%nat) by lia. simpl. f_equal.
      apply IH; [lia | |].
      * intros i Hi. apply (Htrue (S i)). lia.
      * intros i Hi Hlt. apply (Hfalse (S i)); lia.
Qed.

End Counting.

Lemma sorted_nth_le (s : list Q) :
  StronglySorted Qle s ->
  forall i j, (i <= j)%nat -> (j < length s)%nat -> nth i s 0 <= nth j s 0.
Proof.
  induction 1 as [| a s Hs IH Hall]; intros i j Hij Hj; simpl in *.
  - lia.
  - destruct i as [| i], j as [| j]; try lia.
    + apply Qle_refl.
    + rewrite Forall_forall in Hall. apply Hall. apply nth_In. lia.
    + apply IH; lia.
Qed.

Lemma sort_strongly_sorted (a : list Q) : StronglySorted Qle (np.sort a).
Proof.
  assert (H : StronglySorted (fun x y => is_true (Qle_bool x y)) (np.sort a)).
  { apply QSort.StronglySorted_sort.
    intros x y z Hxy Hyz. unfold is_true in *.
    rewrite Qle_bool_iff in *. lra. }
  induction H as [| x s _ IH Hall]; constructor; auto.
  rewrite Forall_forall in *. intros y Hy. apply Qle_bool_iff. now apply Hall.
Qed.

Lemma length_sort (a : list Q) : length (np.sort a) = length a.
Proof. symmetry. apply Permutation_length. apply QSort.Permuted_sort. Qed.

(** With [10 * k] values the tenth percentile sits nine tenths of the way
    from the [k]-th smallest value to the next one. *)
Lemma percentile_tenth (a : list Q) (k : nat) :
  (1 <= k)%nat ->
  length a = (10 * k)%nat ->
  np.percentile a (100 * (1 # 10))
  == nth (k - 1) (np.sort a) 0
     + (9 # 10) * (nth k (np.sort a) 0 - nth (k - 1) (np.sort a) 0).
Proof.
  intros Hk Hlen. unfold np.percentile. rewrite Qred_correct, Hlen.
  set (h := (inject_Z (Z.of_nat (10 * k)) - 1) * (100 * (1 # 10) / 100)).
  assert (Hh : h == inject_Z (Z.of_nat k - 1) + (9 # 10)).
  { unfold h. rewrite Nat2Z.inj_mul, inject_Z_mult.
    unfold Zminus. rewrite inject_Z_plus.
    change (inject_Z (Z.of_nat 10)) with 10. change (inject_Z (- (1))) with (-(1)).
    field. }
  assert (Hfloor : Qfloor h = (Z.of_nat k - 1)%Z).
  { pose proof (Qfloor_le h) as Hlo. pose proof (Qlt_floor h) as Hhi.
    assert (H1 : (Qfloor h < Z.of_nat k - 1 + 1)%Z).
    { rewrite Zlt_Qlt, inject_Z_plus. change (inject_Z 1) with 1. lra. }
    assert (H2 : (Z.of_nat k - 1 < Qfloor h + 1)%Z).
    { rewrite Zlt_Qlt. lra. }
    lia. }
  rewrite Hfloor.
  replace (Z.to_nat (Z.of_nat k - 1)) with (k - 1)%nat by lia.
  replace (Nat.min (S (k - 1)) (10 * k - 1)) with k by lia.
  rewrite Hh. ring.
Qed.

(** With no tie between the [k]-th smallest value and the next, exactly [k]
    of the [10 * k] values lie below their tenth percentile. *)
Lemma count_below_percentile (a : list Q) (k : nat) :
  (1 <= k)%nat ->
  length a = (10 * k)%nat ->
  nth (k - 1) (np.sort a) 0 < nth k (np.sort a) 0 ->
  length (filter (fun x => Qltb (x - np.percentile a (100 * (1 # 10))) 0) a) = k.
Proof.
  intros Hk Hlen Hgap.
  pose proof (percentile_tenth a k Hk Hlen) as Hoff.
  set (off := np.percentile a (100 * (1 # 10))) in *.
  pose proof (sort_strongly_sorted a) as Hsorted.
  pose proof (length_sort a) as Hlens.
  rewrite (count_permutation _ _ _ (QSort.Permuted_sort a)).
  fold (np.sort a).
  apply count_prefix.
  - lia.
  - intros i Hi. apply Qltb_lt.
    assert (nth i (np.sort a) 0 <= nth (k - 1) (np.sort a) 0)
      by (apply sorted_nth_le; auto; lia).
    lra.
  - intros i Hi Hlt. apply Qltb_ge.
    assert (nth k (np.sort a) 0 <= nth i (np.sort a) 0)
      by (apply sorted_nth_le; auto; lia).
    lra.
Qed.

(** ** Severity (claim C1) *)

(** C1, as the code has it.  In every frame a call returns, a row whose
    risk score lies in the range of the bins, above -1 and at most 9999, is
    tiered by the cut points 30 and 60: Low up to and including 30, Medium
    above 30 up to and including 60, High above 60.  In particular 30.00
    is Low, 30.01 is Medium, 60.00 is Medium and 60.01 is High. *)
Theorem severity_by_cut_points_within_bins :
  forall (E : Estimator) df rs result w i r,
    app.call E df rs = (inr result, w) ->
    app.risk_at result i = Some (Finite r) ->
    (-(1) < r <= 30 -> app.severity_at result i = Some (Some "Low")) /\
    (30 < r <= 60 -> app.severity_at result i = Some (Some "Medium")) /\
    (60 < r <= 9999 -> app.severity_at result i = Some (Some "High")) /\
    pd.cut1 (Finite 30) app.severity_bins app.severity_labels = Some "Low" /\
    pd.cut1 (Finite (3001 # 100)) app.severity_bins app.severity_labels
      = Some "Medium" /\
    pd.cut1 (Finite 60) app.severity_bins app.severity_labels = Some "Medium" /\
    pd.cut1 (Finite (6001 # 100)) app.severity_bins app.severity_labels
      = Some "High".
Proof.
  intros E df rs result w i r Hcall Hrisk.
  destruct (call_inversion E _ _ _ _ Hcall) as (m & rs' & _ & _ & -> & _).
  rewrite annotated_severity_at, Hrisk. unfold option_map.
  repeat split; try reflexivity; intros Hr.
  - now rewrite cut_low.
  - now rewrite cut_medium.
  - now rewrite cut_high.
Qed.

(** The last row of [demo] scores 14.00 and is Low. *)
Lemma severity_by_cut_points_within_bins_witness :
  app.severity_at (app.frame _ (snd (app.call first_column_scorer demo 0%nat))) 4
  = Some (Some "Low").
Proof.
  refine (proj1 (severity_by_cut_points_within_bins first_column_scorer demo 0%nat
                   _ _ 4%nat 14 _ _) _).
  - vm_compute. reflexivity.
  - vm_compute. reflexivity.
  - split; [reflexivity | discriminate].
Defined.

(** C1 as the specification words it, "risk <= 30 yields Low", fails on the
    first row of [demo]: its risk score is -36.00 and it gets no tier. *)
Lemma severity_missing_below_bins :
  exists result w,
    app.call first_column_scorer demo 0%nat = (inr result, w) /\
    app.risk_at result 0 = Some (Finite (-36 # 1)) /\
    (-36 # 1) <= 30 /\
    app.severity_at result 0 = Some None.
Proof.
  eexists. eexists. split; [vm_compute; reflexivity |].
  split; [reflexivity |]. split; [discriminate | reflexivity].
Qed.

(** ** Risk score and status against the fitted threshold (claims C2, C3) *)

Section Threshold.

Variable E : Estimator.
Variables (df : pd.DataFrame) (rs rs' : RandomState E) (m : sklearn.Fitted E).

Let X := pd.select_dtypes_number df.

Hypothesis Hfit : sklearn.fit E app.new_model X rs = inr (m, rs').

Lemma fit_offset :
  sklearn.offset_ E m
  = np.percentile (sklearn.score_samples E m X) (100 * (1 # 10)).
Proof.
  unfold sklearn.fit in Hfit.
  destruct (sklearn.check_array X); [discriminate |].
  destruct (grow E _ X) as [e | [f rs'']]; [discriminate |].
  injection Hfit as <- _. reflexivity.
Qed.

Lemma call_result result w :
  app.call E df rs = (inr result, w) ->
  result = app.annotated df (app.risk_scores E m X) (sklearn.predict E m X).
Proof.
  intros Hcall.
  destruct (call_inversion E _ _ _ _ Hcall) as (m0 & rs0 & Hfit0 & _ & -> & _).
  fold X in Hfit0. rewrite Hfit in Hfit0. now injection Hfit0 as <- _.
Qed.

Lemma count_suspicious :
  app.count_status
    (app.annotated df (app.risk_scores E m X) (sklearn.predict E m X))
    app.Suspicious
  = length (filter (fun x => Qltb (x - sklearn.offset_ E m) 0)
                   (sklearn.score_samples E m X)).
Proof.
  unfold app.count_status. rewrite annotated_status.
  unfold app.status_labels, np.where_, sklearn.predict, sklearn.decision_function.
  induction (sklearn.score_samples E m X) as [| x l IH]; [reflexivity |].
  cbn [map filter].
  destruct (Qltb (x - sklearn.offset_ E m) 0).
  - change (String.eqb app.Suspicious
              (if Z.eqb (-1) (-1) then app.Suspicious else app.Normal)) with true.
    cbn [length]. now rewrite IH.
  - change (String.eqb app.Suspicious
              (if Z.eqb 1 (-1) then app.Suspicious else app.Normal)) with false.
    exact IH.
Qed.

End Threshold.

(** C2, as the code has it.  The risk score of a row is
    round((score - threshold) * 100, 2), where score is the row's normalised
    anomaly score and threshold is the opposite of the fitted [offset_]:
    with contamination 0.1 that is the tenth percentile of the negated
    scores of the dataset, not the constant 0.5.  A row at the threshold
    gets 0, a Suspicious row a risk of 0 or more, a Normal row 0 or less. *)
Theorem risk_is_scaled_deviation_from_threshold :
  forall (E : Estimator) df rs m rs' result w,
    sklearn.fit E app.new_model (pd.select_dtypes_number df) rs = inr (m, rs') ->
    app.call E df rs = (inr result, w) ->
    let scores := anomaly_score E (sklearn.estimators_ E m) (pd.select_dtypes_number df) in
    let threshold := - sklearn.offset_ E m in
    threshold = - np.percentile (map Qopp scores) (100 * (1 # 10)) /\
    (forall i s,
        nth_error scores i = Some s ->
        app.risk_at result i = Some (Finite (np.round ((s - threshold) * 100) 2))) /\
    (forall i r,
        app.risk_at result i = Some (Finite r) ->
        (app.status_at result i = Some app.Suspicious -> 0 <= r) /\
        (app.status_at result i = Some app.Normal -> r <= 0)).
Proof.
  intros E df rs m rs' result w Hfit Hcall scores threshold.
  rewrite (call_result E _ _ _ _ Hfit _ _ Hcall).
  split; [| split].
  - unfold threshold. now rewrite (fit_offset E _ _ _ _ Hfit).
  - intros i s Hs.
    rewrite row_risk, row_decision. fold scores. rewrite Hs. cbn [option_map].
    do 2 f_equal. apply round_comp. unfold threshold. ring.
  - intros i r. rewrite row_risk, row_status.
    destruct (nth_error (sklearn.decision_function E m (pd.select_dtypes_number df)) i)
      as [d |]; cbn [option_map]; [| discriminate].
    intros Hr. injection Hr as <-.
    destruct (Qltb d 0) eqn:Hd.
    + apply Qltb_lt in Hd. split; [intros _ | discriminate].
      change 0 with (inject_Z 0). apply round2_ge.
      change (inject_Z 0) with 0. lra.
    + apply Qltb_ge in Hd. split; [discriminate | intros _].
      change 0 with (inject_Z 0). apply round2_le.
      change (inject_Z 0) with 0. lra.
Qed.

(** The last row of [demo]: score 0.90, threshold 0.76, risk 14.00. *)
Lemma risk_is_scaled_deviation_from_threshold_witness :
  app.risk_at (app.frame _ (snd (app.call first_column_scorer demo 0%nat))) 4
  = Some (Finite 14).
Proof.
  refine (proj1 (proj2 (risk_is_scaled_deviation_from_threshold first_column_scorer
                          demo 0%nat (sklearn.mkFitted first_column_scorer 0%nat (-(19 # 25)))
                          1%nat _ _ _ _)) 4%nat (9 # 10) _).
  - vm_compute. reflexivity.
  - vm_compute. reflexivity.
  - reflexivity.
Defined.

(** C2 as the specification words it fails on the last row of [demo]: its
    normalised score is 0.90, so the deviation from 0.5 scaled by 100 is
    40.00, and its risk score is 14.00. *)
Lemma risk_is_not_deviation_from_one_half :
  exists result w m rs',
    app.call first_column_scorer demo 0%nat = (inr result, w) /\
    sklearn.fit first_column_scorer app.new_model (pd.select_dtypes_number demo) 0%nat
    = inr (m, rs') /\
    nth_error (anomaly_score first_column_scorer (sklearn.estimators_ _ m)
                 (pd.select_dtypes_number demo)) 4
    = Some (9 # 10) /\
    np.round (((9 # 10) - (1 # 2)) * 100) 2 = 40 /\
    app.risk_at result 4 = Some (Finite 14).
Proof.
  do 4 eexists. split; [vm_compute; reflexivity |].
  split; [vm_compute; reflexivity |].
  repeat split.
Qed.

(** C3.  A row is "Suspicious" exactly when its normalised anomaly score
    exceeds the threshold the fit derived from the contamination percentile
    of the dataset's scores, and "Normal" otherwise.  Consequently, over
    [10 * k] rows (1000 rows for [k = 100]) with no tie at the threshold,
    that is, between the [k]-th and the [(k+1)]-th most anomalous score,
    exactly [k] rows are Suspicious. *)
Theorem suspicious_above_contamination_threshold :
  forall (E : Estimator) df rs m rs' result w,
    sklearn.fit E app.new_model (pd.select_dtypes_number df) rs = inr (m, rs') ->
    app.call E df rs = (inr result, w) ->
    let scores := anomaly_score E (sklearn.estimators_ E m) (pd.select_dtypes_number df) in
    let threshold := - np.percentile (map Qopp scores) (100 * (1 # 10)) in
    (forall i s,
        nth_error scores i = Some s ->
        app.status_at result i
        = Some (if Qltb threshold s then app.Suspicious else app.Normal)) /\
    (forall k,
        (1 <= k)%nat ->
        pd.index df = (10 * k)%nat ->
        nth (k - 1) (np.sort (map Qopp scores)) 0 < nth k (np.sort (map Qopp scores)) 0 ->
        app.count_status result app.Suspicious = k).
Proof.
  intros E df rs m rs' result w Hfit Hcall scores threshold.
  pose proof (fit_offset E _ _ _ _ Hfit) as Hoff.
  unfold sklearn.score_samples, sklearn.raw_scores in Hoff. fold scores in Hoff.
  destruct (call_inversion E _ _ _ _ Hcall) as (m0 & rs0 & Hfit0 & Hlen & _ & _).
  rewrite Hfit in Hfit0. injection Hfit0 as <- <-. fold scores in Hlen.
  rewrite (call_result E _ _ _ _ Hfit _ _ Hcall).
  split.
  - intros i s Hs.
    rewrite row_status, row_decision. fold scores. rewrite Hs. cbn [option_map].
    rewrite Hoff. unfold threshold.
    set (off := np.percentile (map Qopp scores) (100 * (1 # 10))).
    destruct (Qltb (- s - off) 0) eqn:Hd, (Qltb (- off) s) eqn:Ht;
      try reflexivity; exfalso.
    + apply Qltb_lt in Hd. apply Qltb_ge in Ht. lra.
    + apply Qltb_ge in Hd. apply Qltb_lt in Ht. lra.
  - intros k Hk Hrows Hgap.
    rewrite count_suspicious, Hoff.
    unfold sklearn.score_samples, sklearn.raw_scores. fold scores.
    apply count_below_percentile; auto.
    rewrite length_map. lia.
Qed.

(** [demo_thousand]: a hundred of its thousand rows are Suspicious. *)
Lemma suspicious_above_contamination_threshold_witness :
  app.count_status
    (app.frame _ (snd (app.call first_column_scorer demo_thousand 0%nat)))
    app.Suspicious
  = 100%nat.
Proof.
  refine (proj2 (suspicious_above_contamination_threshold first_column_scorer
                   demo_thousand 0%nat
                   (sklearn.mkFitted first_column_scorer 0%nat (-(9001 # 10000)))
                   1%nat _ _ _ _) 100%nat _ _ _).
  - vm_compute. reflexivity.
  - vm_compute. reflexivity.
  - lia.
  - reflexivity.
  - vm_compute. reflexivity.
Defined.

(** ** Calls on tables with the same numeric columns *)

Lemma equal_on_numeric_columns_refl df : equal_on_numeric_columns df df.
Proof.
  split; [reflexivity |].
  induction (pd.columns df) as [| [k s] rest IH]; constructor; [| exact IH].
  destruct s; constructor.
Qed.

(** Tables that differ outside their numeric columns only hand the forest
    the same table. *)
Lemma select_equal_on_numeric_columns df1 df2 :
  equal_on_numeric_columns df1 df2 ->
  pd.select_dtypes_number df1 = pd.select_dtypes_number df2.
Proof.
  intros [Hidx Hcols]. unfold pd.select_dtypes_number. rewrite Hidx. f_equal.
  induction Hcols as [| c1 c2 l1 l2 Hc _ IH]; [reflexivity |].
  destruct Hc; cbn [filter snd pd.is_number]; now rewrite IH.
Qed.

(** Two calls whose forests are handed the same table, with the random
    state at the same point, end alike. *)
Lemma calls_on_the_same_table (E : Estimator) df1 df2 rs :
  pd.select_dtypes_number df1 = pd.select_dtypes_number df2 ->
  match fst (app.call E df1 rs), fst (app.call E df2 rs) with
  | inr r1, inr r2 =>
      pd.lookup "Risk Score" (pd.columns r1) = pd.lookup "Risk Score" (pd.columns r2) /\
      pd.lookup "Severity" (pd.columns r1) = pd.lookup "Severity" (pd.columns r2) /\
      pd.lookup "Status" (pd.columns r1) = pd.lookup "Status" (pd.columns r2) /\
      (forall i,
          app.risk_at r1 i = app.risk_at r2 i /\
          app.severity_at r1 i = app.severity_at r2 i /\
          app.status_at r1 i = app.status_at r2 i)
  | inl e1, inl e2 => e1 = e2
  | _, _ => False
  end.
Proof.
  intros HX.
  assert (Hidx : pd.index df1 = pd.index df2).
  { change (pd.index (pd.select_dtypes_number df1)
            = pd.index (pd.select_dtypes_number df2)). now rewrite HX. }
  destruct (sklearn.fit E app.new_model (pd.select_dtypes_number df2) rs)
    as [e | [m rs']] eqn:Hfit2.
  - assert (Hfit1 := Hfit2). rewrite <- HX in Hfit1.
    rewrite (call_fit_raises E _ _ _ Hfit1), (call_fit_raises E _ _ _ Hfit2).
    reflexivity.
  - assert (Hfit1 := Hfit2). rewrite <- HX in Hfit1.
    destruct (Nat.eq_dec
                (length (anomaly_score E (sklearn.estimators_ E m)
                           (pd.select_dtypes_number df2)))
                (pd.index df2)) as [Hlen | Hlen].
    + assert (Hlen1 := Hlen). rewrite <- HX, <- Hidx in Hlen1.
      rewrite (call_returns E _ _ _ _ Hfit1 Hlen1), (call_returns E _ _ _ _ Hfit2 Hlen).
      cbn [fst]. unfold app.risk_at, app.severity_at, app.status_at.
      rewrite !annotated_risk, !annotated_severity, !annotated_status, HX.
      repeat split.
    + assert (Hlen1 := Hlen). rewrite <- HX, <- Hidx in Hlen1.
      rewrite (call_length_mismatch E _ _ _ _ Hfit1 Hlen1),
        (call_length_mismatch E _ _ _ _ Hfit2 Hlen).
      reflexivity.
Qed.



(** ** Repeated runs (claim C4) *)




(** ** The caller's frame (claim C5) *)

Lemma other_columns_assign key v cols :
  existsb (String.eqb key) app.result_columns = true ->
  filter (fun c => negb (existsb (String.eqb (fst c)) app.result_columns))
         (pd.assign key v cols)
  = filter (fun c => negb (existsb (String.eqb (fst c)) app.result_columns)) cols.
Proof.
  intros Hkey. induction cols as [| [k s] rest IH].
  - cbn [pd.assign filter fst]. now rewrite Hkey.
  - cbn [pd.assign]. destruct (String.eqb k key) eqn:Hk.
    + apply String.eqb_eq in Hk. subst k.
      cbn [filter fst]. now rewrite Hkey.
    + cbn [filter fst]. now rewrite IH.
Qed.

Lemma other_columns_annotated df risk preds :
  app.other_columns (app.annotated df risk preds) = app.other_columns df.
Proof.
  unfold app.other_columns, app.annotated. cbn [pd.columns].
  now rewrite !other_columns_assign by reflexivity.
Qed.

(** C5, as the code has it.  [detect_fraud] writes into the frame it is
    given and returns that same frame.  A call that returns has set the
    three columns "Risk Score", "Severity" and "Status", one value per row;
    the row count and every column under another name are as before, in the
    same order.  A call that raises has written nothing. *)
Theorem result_columns_written_in_place :
  forall (E : Estimator) df rs r w,
    app.call E df rs = (r, w) ->
    pd.index (app.frame E w) = pd.index df /\
    app.other_columns (app.frame E w) = app.other_columns df /\
    match r with
    | inr result =>
        result = app.frame E w /\
        exists risk severity status,
          pd.lookup "Risk Score" (pd.columns result) = Some (pd.Float64 risk) /\
          pd.lookup "Severity" (pd.columns result) = Some (pd.Categorical severity) /\
          pd.lookup "Status" (pd.columns result) = Some (pd.Object status) /\
          length risk = pd.index df /\
          length severity = pd.index df /\
          length status = pd.index df
    | inl _ => app.frame E w = df
    end.
Proof.
  intros E df rs r w Hcall.
  destruct (sklearn.fit E app.new_model (pd.select_dtypes_number df) rs)
    as [e | [m rs']] eqn:Hfit.
  - rewrite (call_fit_raises E _ _ _ Hfit) in Hcall.
    injection Hcall as <- <-. auto.
  - destruct (Nat.eq_dec
                (length (anomaly_score E (sklearn.estimators_ E m)
                           (pd.select_dtypes_number df)))
                (pd.index df)) as [Hlen | Hlen].
    + rewrite (call_returns E _ _ _ _ Hfit Hlen) in Hcall.
      injection Hcall as <- <-. cbn [app.frame].
      split; [reflexivity |]. split; [apply other_columns_annotated |].
      split; [reflexivity |].
      do 3 eexists.
      split; [apply annotated_risk |].
      split; [apply annotated_severity |].
      split; [apply annotated_status |].
      now rewrite length_map, length_risk_scores, length_status_labels,
        length_predict.
    + rewrite (call_length_mismatch E _ _ _ _ Hfit Hlen) in Hcall.
      injection Hcall as <- <-. auto.
Qed.

(** On [demo] the two input columns come through unchanged. *)
Lemma result_columns_written_in_place_witness :
  app.other_columns (app.frame _ (snd (app.call first_column_scorer demo 0%nat)))
  = app.other_columns demo.
Proof.
  refine (proj1 (proj2 (result_columns_written_in_place first_column_scorer
                          demo 0%nat _ _ _))).
  apply surjective_pairing.
Defined.

(** C5 as the specification words it fails: after the call the caller's
    [demo] has five columns where it had two. *)
Lemma caller_frame_gains_columns :
  exists r w,
    app.call first_column_scorer demo 0%nat = (r, w) /\
    map fst (pd.columns demo) = ["who"; "amount"] /\
    map fst (pd.columns (app.frame _ w))
    = ["who"; "amount"; "Risk Score"; "Severity"; "Status"].
Proof.
  eexists. eexists. split; [vm_compute; reflexivity |].
  split; reflexivity.
Qed.

(** ** NaN and infinities in the input (claim C6) *)

(** C6, as the code has it.  [detect_fraud] makes no check of its own for
    NaN or infinite values.  Whatever the numeric columns hold, the call
    raises exactly when the forest's [fit] raises, with that exception and
    with nothing written; when [fit] accepts the table and scores each row,
    the call returns and every row has a risk score and a status. *)
Theorem outcome_is_that_of_fit :
  forall (E : Estimator) df rs,
    match sklearn.fit E app.new_model (pd.select_dtypes_number df) rs with
    | inl e => app.call E df rs = (inl e, app.mkWorld E df rs)
    | inr (m, rs') =>
        length (anomaly_score E (sklearn.estimators_ E m)
                  (pd.select_dtypes_number df)) = pd.index df ->
        exists result,
          app.call E df rs = (inr result, app.mkWorld E result rs') /\
          forall i, (i < pd.index df)%nat ->
            (exists r, app.risk_at result i = Some (Finite r)) /\
            (exists label, app.status_at result i = Some label)
    end.
Proof.
  intros E df rs.
  destruct (sklearn.fit E app.new_model (pd.select_dtypes_number df) rs)
    as [e | [m rs']] eqn:Hfit.
  - now apply call_fit_raises.
  - intros Hlen. eexists. split; [exact (call_returns E _ _ _ _ Hfit Hlen) |].
    intros i Hi.
    rewrite row_risk, row_status.
    destruct (nth_error (sklearn.decision_function E m (pd.select_dtypes_number df)) i)
      as [d |] eqn:Hd.
    + cbn [option_map]. eauto.
    + apply nth_error_None in Hd.
      unfold sklearn.decision_function, sklearn.score_samples, sklearn.raw_scores in Hd.
      rewrite !length_map in Hd. lia.
Qed.

(** [demo_nonfinite] has a NaN and an infinite amount; with an estimator
    that takes them, the call returns. *)
Lemma outcome_is_that_of_fit_witness :
  exists result,
    app.call first_column_scorer demo_nonfinite 0%nat
    = (inr result, app.mkWorld first_column_scorer result 1%nat) /\
    forall i, (i < 5)%nat ->
      (exists r, app.risk_at result i = Some (Finite r)) /\
      (exists label, app.status_at result i = Some label).
Proof.
  exact (outcome_is_that_of_fit first_column_scorer demo_nonfinite 0%nat eq_refl).
Defined.

(** C6 as the specification words it fails: nothing in [detect_fraud]
    raises on the NaN and the infinity of [demo_nonfinite]; the two rows get
    a risk score, a status and no severity. *)
Lemma nonfinite_input_is_scored :
  exists result w,
    app.has_nonfinite demo_nonfinite = true /\
    app.call first_column_scorer demo_nonfinite 0%nat = (inr result, w) /\
    app.risk_at result 1 = Some (Finite (-24 # 1)) /\
    app.severity_at result 1 = Some None /\
    app.status_at result 1 = Some app.Normal /\
    app.risk_at result 3 = Some (Finite (-24 # 1)).
Proof.
  eexists. eexists. split; [reflexivity |].
  split; [vm_compute; reflexivity |].
  repeat split.
Qed.

(** ** Tables the forest cannot be fitted on (claim C7) *)

(** C7.  On a dataset with no rows, or with no numeric column, the call
    raises at once: the shape check of [fit] refuses the table (a Python
    [ValueError], which is what the specification's InvalidConfiguration
    stands for here) before any tree is grown, so the caller's frame has no
    column added and the random state is untouched. *)
Theorem empty_table_raises_before_any_write :
  forall (E : Estimator) df rs,
    pd.index df = 0%nat \/ pd.columns (pd.select_dtypes_number df) = [] ->
    exists msg,
      app.call E df rs = (inl (ValueError msg), app.mkWorld E df rs).
Proof.
  intros E df rs Hempty.
  assert (Hcheck : exists msg,
             sklearn.check_array (pd.select_dtypes_number df)
             = inl (ValueError msg)).
  { unfold sklearn.check_array. cbn [pd.select_dtypes_number pd.index].
    destruct (Nat.eqb (pd.index df) 0) eqn:Hrows; [eauto |].
    destruct Hempty as [H0 | Hcols].
    - rewrite H0 in Hrows. discriminate.
    - rewrite Hcols. cbn. eauto. }
  destruct Hcheck as [msg Hcheck]. exists msg.
  apply call_fit_raises. unfold sklearn.fit. now rewrite Hcheck.
Qed.

(** A frame of names only, and a frame without rows. *)
Lemma empty_table_raises_before_any_write_witness :
  (exists msg,
      app.call first_column_scorer demo_names_only 0%nat
      = (inl (ValueError msg), app.mkWorld first_column_scorer demo_names_only 0%nat)) /\
  (exists msg,
      app.call first_column_scorer demo_empty 0%nat
      = (inl (ValueError msg), app.mkWorld first_column_scorer demo_empty 0%nat)).
Proof.
  split.
  - apply (empty_table_raises_before_any_write first_column_scorer
             demo_names_only 0%nat).
    right. reflexivity.
  - apply (empty_table_raises_before_any_write first_column_scorer
             demo_empty 0%nat).
    left. reflexivity.
Defined.

(** ** Non-numeric columns (claim C8) *)

(** C8.  Non-numeric columns are ignored.  Take two datasets with the same
    rows and columns that differ in the values of non-numeric columns
    only.  Called with the random state at the same point, either both
    calls raise the same exception or both return, and then with the same
    "Risk Score", "Severity" and "Status" columns, row for row. *)
Theorem non_numeric_columns_ignored :
  forall (E : Estimator) df1 df2 rs,
    equal_on_numeric_columns df1 df2 ->
    match fst (app.call E df1 rs), fst (app.call E df2 rs) with
    | inr r1, inr r2 =>
        pd.lookup "Risk Score" (pd.columns r1) = pd.lookup "Risk Score" (pd.columns r2) /\
        pd.lookup "Severity" (pd.columns r1) = pd.lookup "Severity" (pd.columns r2) /\
        pd.lookup "Status" (pd.columns r1) = pd.lookup "Status" (pd.columns r2) /\
        (forall i,
            app.risk_at r1 i = app.risk_at r2 i /\
            app.severity_at r1 i = app.severity_at r2 i /\
            app.status_at r1 i = app.status_at r2 i)
    | inl e1, inl e2 => e1 = e2
    | _, _ => False
    end.
Proof.
  intros E df1 df2 rs Hsame.
  apply calls_on_the_same_table.
  now apply select_equal_on_numeric_columns.
Qed.

(** [demo] and [demo_renamed] differ in the "who" column only, and both
    are scored: the two calls return the same risk scores, severities and
    statuses. *)
Lemma non_numeric_columns_ignored_witness :
  pd.lookup "who" (pd.columns demo) <> pd.lookup "who" (pd.columns demo_renamed) /\
  exists r1 r2,
    fst (app.call first_column_scorer demo 0%nat) = inr r1 /\
    fst (app.call first_column_scorer demo_renamed 0%nat) = inr r2 /\
    pd.lookup "Risk Score" (pd.columns r1)
    = Some (pd.Float64 [Finite (-36 # 1); Finite (-31 # 1); Finite (-26 # 1);
                        Finite (-21 # 1); Finite (14 # 1)]) /\
    pd.lookup "Risk Score" (pd.columns r1) = pd.lookup "Risk Score" (pd.columns r2) /\
    pd.lookup "Severity" (pd.columns r1) = pd.lookup "Severity" (pd.columns r2) /\
    pd.lookup "Status" (pd.columns r1) = pd.lookup "Status" (pd.columns r2).
Proof.
  split; [discriminate |].
  assert (Hsame : equal_on_numeric_columns demo demo_renamed)
    by (split; [reflexivity | repeat constructor]).
  pose proof (non_numeric_columns_ignored first_column_scorer demo demo_renamed
                0%nat Hsame) as Hcalls.
  assert (H1 : fst (app.call first_column_scorer demo 0%nat)
               = inr (app.frame _ (snd (app.call first_column_scorer demo 0%nat))))
    by (vm_compute; reflexivity).
  assert (H2 : fst (app.call first_column_scorer demo_renamed 0%nat)
               = inr (app.frame _
                        (snd (app.call first_column_scorer demo_renamed 0%nat))))
    by (vm_compute; reflexivity).
  rewrite H1, H2 in Hcalls.
  destruct Hcalls as (Hrisk & Hsev & Hstat & _).
  eexists. eexists.
  split; [exact H1 |]. split; [exact H2 |].
  split; [vm_compute; reflexivity |].
  split; [exact Hrisk |]. split; [exact Hsev | exact Hstat].
Defined.

(** ** Rows without a severity (claim C9) *)

(** C9.  The severity column is not total over the risk scores a call
    writes: a row whose risk score is at most -1, or above 9999, has a
    missing severity.  Such rows are ordinary ones: the risk score is the
    decision score times -100, so every row the forest puts at 0.01 or more
    on the inlier side is labelled Normal, has a risk score of -1 or less
    and no severity; the first row of [demo] is one. *)
Theorem severity_missing_outside_bins :
  (forall (E : Estimator) df rs result w,
      app.call E df rs = (inr result, w) ->
      (forall i r,
          app.risk_at result i = Some (Finite r) ->
          r <= -(1) \/ 9999 < r ->
          app.severity_at result i = Some None) /\
      (exists m rs',
          sklearn.fit E app.new_model (pd.select_dtypes_number df) rs
            = inr (m, rs') /\
          forall i d,
            nth_error (sklearn.decision_function E m (pd.select_dtypes_number df)) i
              = Some d ->
            1 # 100 <= d ->
            app.status_at result i = Some app.Normal /\
            (exists r, app.risk_at result i = Some (Finite r) /\ r <= -(1)) /\
            app.severity_at result i = Some None)) /\
  (exists result w,
      app.call first_column_scorer demo 0%nat = (inr result, w) /\
      app.status_at result 0 = Some app.Normal /\
      app.risk_at result 0 = Some (Finite (-36 # 1)) /\
      app.severity_at result 0 = Some None).
Proof.
  split.
  - intros E df rs result w Hcall.
    destruct (call_inversion E _ _ _ _ Hcall) as (m & rs' & Hfit & _ & -> & _).
    split.
    + intros i r Hrisk Hr.
      rewrite annotated_severity_at, Hrisk. unfold option_map.
      now rewrite cut_missing.
    + exists m, rs'. split; [exact Hfit |].
      intros i d Hd Hpos.
      assert (Hround : np.round (d * -(100)) 2 <= -(1)).
      { change (-(1)) with (inject_Z (-1)). apply round2_le.
        change (inject_Z (-1)) with (-(1)). lra. }
      rewrite annotated_severity_at, row_risk, row_status, Hd. unfold option_map.
      repeat split.
      * replace (Qltb d 0) with false; [reflexivity |].
        symmetry. apply Qltb_ge. lra.
      * eexists. split; [reflexivity | exact Hround].
      * now rewrite cut_missing by (left; exact Hround).
  - eexists. eexists. split; [vm_compute; reflexivity |].
    repeat split.
Qed.

(** On [demo] the second row, at decision score 0.31, is such a row. *)
Lemma severity_missing_outside_bins_witness :
  app.severity_at (app.frame _ (snd (app.call first_column_scorer demo 0%nat))) 1
  = Some None.
Proof.
  refine (proj1 (proj1 severity_missing_outside_bins first_column_scorer demo 0%nat
                   _ _ _) 1%nat (-31 # 1) _ _).
  - vm_compute. reflexivity.
  - vm_compute. reflexivity.
  - left. discriminate.
Defined.

(** ** The status column (claim C10) *)

Lemma status_labels_binary preds :
  Forall (fun l => l = app.Suspicious \/ l = app.Normal) (app.status_labels preds).
Proof.
  unfold app.status_labels, np.where_. rewrite map_map.
  induction preds as [| p preds IH]; simpl; constructor; auto.
  destruct (Z.eqb p (-1)); auto.
Qed.

Lemma count_two_labels (a b : string) labels :
  a <> b ->
  Forall (fun l => l = a \/ l = b) labels ->
  (length (filter (String.eqb a) labels) + length (filter (String.eqb b) labels)
   = length labels)%nat.
Proof.
  intros Hab Hall. induction Hall as [| l labels [-> | ->] _ IH]; simpl; auto.
  - rewrite String.eqb_refl.
    replace (String.eqb b a) with false; simpl; [lia |].
    symmetry. apply String.eqb_neq. congruence.
  - rewrite String.eqb_refl.
    replace (String.eqb a b) with false; simpl; [lia |].
    symmetry. now apply String.eqb_neq.
Qed.

(** C10.  The status label is total and binary.  A frame a call returns has
    as many rows as the input and a status for each of them, which is one of
    the two distinct strings "🔴 Suspicious" and "🟢 Normal", emoji included;
    so the two counters of the dashboard add up to the number of rows. *)
Theorem status_total_and_binary :
  forall (E : Estimator) df rs result w,
    app.call E df rs = (inr result, w) ->
    pd.index result = pd.index df /\
    app.Suspicious = "🔴 Suspicious" /\
    app.Normal = "🟢 Normal" /\
    app.Suspicious <> app.Normal /\
    (exists labels,
        pd.lookup "Status" (pd.columns result) = Some (pd.Object labels) /\
        length labels = pd.index df /\
        Forall (fun l => l = app.Suspicious \/ l = app.Normal) labels) /\
    (app.count_status result app.Suspicious + app.count_status result app.Normal
     = pd.index df)%nat.
Proof.
  intros E df rs result w Hcall.
  destruct (call_inversion E _ _ _ _ Hcall) as (m & rs' & _ & Hlen & -> & _).
  assert (Hne : app.Suspicious <> app.Normal) by discriminate.
  assert (Hrows : length (app.status_labels
                            (sklearn.predict E m (pd.select_dtypes_number df)))
                  = pd.index df).
  { now rewrite length_status_labels, length_predict. }
  repeat split; auto.
  - eexists. split; [apply annotated_status |]. split; [exact Hrows |].
    apply status_labels_binary.
  - unfold app.count_status. rewrite annotated_status, <- Hrows.
    apply count_two_labels; [exact Hne | apply status_labels_binary].
Qed.

(** On [demo]: one threat and four normal rows out of five. *)
Lemma status_total_and_binary_witness :
  let result := app.frame _ (snd (app.call first_column_scorer demo 0%nat)) in
  app.count_status result app.Suspicious = 1%nat /\
  app.count_status result app.Normal = 4%nat /\
  (app.count_status result app.Suspicious + app.count_status result app.Normal
   = pd.index demo)%nat.
Proof.
  refine (conj eq_refl (conj eq_refl _)).
  refine (proj2 (proj2 (proj2 (proj2 (proj2
            (status_total_and_binary first_column_scorer demo 0%nat _ _ _)))))).
  vm_compute. reflexivity.
Defined.

(** * The pages *)

Section Pages.

Variable E : Estimator.
Variable UploadedFile : Type.
Variable csv_exn : Type.
Variable read_csv : string + UploadedFile -> csv_exn + pd.DataFrame.

Local Abbreviation Inputs := (script.Inputs UploadedFile).
Local Abbreviation Run := (script.Run E).
Local Abbreviation login := (@script.login E UploadedFile csv_exn).
Local Abbreviation main := (script.main E UploadedFile csv_exn read_csv).
Local Abbreviation rerun := (script.rerun E UploadedFile csv_exn read_csv).
Local Abbreviation visit := (script.visit E UploadedFile csv_exn read_csv).

Lemma login_passes (i : Inputs) (r : Run) :
  session_state.is_logged_in (script.session r) = true ->
  login i r = (script.Done tt, r).
Proof.
  unfold session_state.is_logged_in. intros Hin.
  unfold script.login, script.bind, script.get_session, script.session_auth.
  destruct (session_state.auth (script.session r)) as [a |] eqn:Ha; [| discriminate].
  cbn. rewrite Ha. cbn. now rewrite Hin.
Qed.

Lemma login_stops (i : Inputs) (r : Run) :
  session_state.is_logged_in (script.session r) = false ->
  login i r
  = (script.Stopped,
     {| script.session := script.after_login i (script.session r);
        script.page := script.page r ++ script.login_form ++ [script.login_message i];
        script.np_random := script.np_random r |}).
Proof.
  unfold session_state.is_logged_in, script.after_login, script.login_message. intros Hout.
  unfold script.login, script.bind, script.get_session, script.session_auth,
    script.set_auth, script.put_session.
  fold (script.accepted i).
  destruct (session_state.auth (script.session r)) as [a |] eqn:Ha.
  - cbn. rewrite Ha. cbn. rewrite Hout. cbn.
    fold (script.accepted i). destruct (script.accepted i); cbn;
      rewrite <- !app_assoc; reflexivity.
  - cbn. fold (script.accepted i). destruct (script.accepted i); cbn;
      rewrite <- !app_assoc; reflexivity.
Qed.

(** *** [main] up to the dispatch *)

Lemma main_logged_out (i : Inputs) s p g :
  session_state.is_logged_in s = false ->
  main i (script.mkRun s p g)
  = (script.Stopped,
     script.mkRun (script.after_login i s)
                  (p ++ script.login_form ++ [script.login_message i]) g).
Proof.
  intros Hout. unfold script.main, script.bind.
  now rewrite login_stops by exact Hout.
Qed.

Lemma page_of_chosen (i : Inputs) :
  script.page_of E csv_exn
    (st.chosen (map fst (script.pages E UploadedFile csv_exn read_csv i))
               (script.nav_index i))
    (script.pages E UploadedFile csv_exn read_csv i)
  = Some (script.selected E UploadedFile csv_exn read_csv i).
Proof.
  unfold script.selected.
  destruct (script.nav_index i) as [| [| [| [| [| n]]]]]; reflexivity.
Qed.

Lemma main_logged_in (i : Inputs) s p g :
  session_state.is_logged_in s = true ->
  main i (script.mkRun s p g)
  = script.selected E UploadedFile csv_exn read_csv i
      (script.mkRun s (p ++ script.chrome) g).
Proof.
  intros Hin. unfold script.main, script.bind.
  rewrite login_passes by exact Hin.
  unfold script.emit. cbv zeta.
  cbn [script.session script.page script.np_random].
  rewrite page_of_chosen, <- !app_assoc. reflexivity.
Qed.

(** *** The pages that only show *)

Lemma settings_run s p g :
  script.settings E csv_exn (script.mkRun s p g)
  = (script.Done tt,
     script.mkRun s
       (p ++ [st.title "⚙️ Settings";
              st.checkbox "🔁 Enable auto-refresh (coming soon)";
              st.slider "Sensitivity" 0 100 50]) g).
Proof.
  unfold script.settings, script.bind, script.emit. cbn.
  now rewrite <- !app_assoc.
Qed.

Lemma for_each_emits {A : Type} (f : A -> list st.element)
      (body : A -> script.Script E csv_exn unit) :
  (forall x s p g,
      body x (script.mkRun s p g) = (script.Done tt, script.mkRun s (p ++ f x) g)) ->
  forall (l : list A) s p g,
    script.for_each E csv_exn l body (script.mkRun s p g)
    = (script.Done tt, script.mkRun s (p ++ flat_map f l) g).
Proof.
  intros Hbody l s p g. revert p.
  induction l as [| x l IH]; intros p; cbn.
  - now rewrite app_nil_r.
  - unfold script.bind. rewrite Hbody, IH. now rewrite <- app_assoc.
Qed.

Lemma history_run s p g :
  script.history E csv_exn (script.mkRun s p g)
  = (script.Done tt, script.mkRun s (p ++ script.history_view s) g).
Proof.
  unfold script.history, script.history_view, script.get_session.
  unfold script.bind at 1 2. unfold script.emit at 1.
  cbn [script.session script.page script.np_random].
  destruct (session_state.history s) as [h |].
  - rewrite (for_each_emits
               (fun entry : nat * pd.DataFrame =>
                  [st.expander ("Session " ++ script.str_nat (fst entry));
                   st.dataframe (pandas.head 10 (snd entry))])).
    + now rewrite <- app_assoc.
    + intros [n d] s0 p0 g0. unfold script.bind, script.emit. cbn.
      now rewrite <- app_assoc.
  - unfold script.emit. cbn. now rewrite <- app_assoc.
Qed.

Lemma profile_run (i : Inputs) s p g a u :
  session_state.auth s = Some a ->
  session_state.user a = Some u ->
  script.profile E UploadedFile csv_exn i (script.mkRun s p g)
  = (script.Done tt, script.mkRun s (p ++ script.profile_view i a u) g).
Proof.
  intros Ha Hu.
  unfold script.profile, script.session_auth, script.get_session, script.bind,
    script.emit. cbn. rewrite Ha. cbn. rewrite Hu. cbn.
  now rewrite <- !app_assoc.
Qed.

(** *** The dashboard, case by case *)

Ltac same_page :=
  cbn; rewrite <- ?app_assoc; cbn; rewrite ?app_nil_r; reflexivity.

Lemma dashboard_idle (i : Inputs) s p g :
  script.source i = None ->
  script.dashboard E UploadedFile csv_exn read_csv i (script.mkRun s p g)
  = (script.Done tt, script.mkRun s (p ++ script.dashboard_head i) g).
Proof.
  unfold script.source, script.dashboard_head. intros Hsrc.
  unfold script.dashboard, script.bind, script.emit. cbn.
  destruct (script.use_demo i); [discriminate |].
  destruct (script.uploaded i); [discriminate |]. cbn.
  same_page.
Qed.

Lemma dashboard_unreadable (i : Inputs) s p g src e :
  script.source i = Some src ->
  read_csv src = inl e ->
  script.dashboard E UploadedFile csv_exn read_csv i (script.mkRun s p g)
  = (script.Raised (script.Csv e),
     script.mkRun s (p ++ script.dashboard_head i) g).
Proof.
  unfold script.source, script.dashboard_head. intros Hsrc Hread.
  unfold script.dashboard, script.bind, script.emit. cbn.
  destruct (script.use_demo i).
  - injection Hsrc as <-. rewrite Hread. cbn. same_page.
  - destruct (script.uploaded i) as [f |]; [| discriminate].
    injection Hsrc as <-. cbn -[app.call]. rewrite Hread. cbn. same_page.
Qed.

Lemma dashboard_unscored (i : Inputs) s p g src df e w :
  script.source i = Some src ->
  read_csv src = inr df ->
  app.call E df g = (inl e, w) ->
  script.dashboard E UploadedFile csv_exn read_csv i (script.mkRun s p g)
  = (script.Raised (script.Py e),
     script.mkRun s (p ++ script.dashboard_head i) (app.np_random E w)).
Proof.
  unfold script.source, script.dashboard_head. intros Hsrc Hread Hcall.
  unfold script.dashboard, script.bind, script.emit, script.detect_fraud.
  cbn -[app.call].
  destruct (script.use_demo i).
  - injection Hsrc as <-. rewrite Hread. cbn -[app.call]. rewrite Hcall.
    same_page.
  - destruct (script.uploaded i) as [f |]; [| discriminate].
    injection Hsrc as <-. cbn -[app.call]. rewrite Hread. cbn -[app.call]. rewrite Hcall.
    same_page.
Qed.

Lemma returned_risk_column df g result w :
  app.call E df g = (inr result, w) ->
  exists risk,
    pd.lookup "Risk Score" (pd.columns result) = Some (pd.Float64 risk) /\
    length risk = pd.index df.
Proof.
  intros Hcall.
  destruct (call_inversion E _ _ _ _ Hcall) as (m & rs' & _ & Hlen & -> & _).
  eexists. split; [apply annotated_risk |].
  now rewrite length_risk_scores.
Qed.

Lemma dashboard_scored (i : Inputs) s p g src df result w :
  script.source i = Some src ->
  read_csv src = inr df ->
  app.call E df g = (inr result, w) ->
  script.dashboard E UploadedFile csv_exn read_csv i (script.mkRun s p g)
  = (script.Done tt,
     script.mkRun (script.appended s result)
                  (p ++ script.dashboard_head i ++ script.report result)
                  (app.np_random E w)).
Proof.
  unfold script.source, script.dashboard_head, script.report, script.avg_risk,
    script.appended, session_state.entries.
  intros Hsrc Hread Hcall.
  destruct (returned_risk_column _ _ _ _ Hcall) as (risk & Hrisk & _).
  unfold script.dashboard, script.bind, script.emit, script.detect_fraud,
    script.history_append, script.get_session, script.put_session, pd.getitem.
  cbn -[app.call].
  destruct (script.use_demo i).
  - injection Hsrc as <-. rewrite Hread. cbn -[app.call]. rewrite Hcall. cbn.
    rewrite Hrisk. cbn. same_page.
  - destruct (script.uploaded i) as [f |]; [| discriminate].
    injection Hsrc as <-. cbn -[app.call]. rewrite Hread. cbn -[app.call]. rewrite Hcall. cbn.
    rewrite Hrisk. cbn. same_page.
Qed.

Lemma profile_no_user (i : Inputs) s p g a :
  session_state.auth s = Some a ->
  session_state.user a = None ->
  script.profile E UploadedFile csv_exn i (script.mkRun s p g)
  = (script.Raised (script.Py (KeyError "user")),
     script.mkRun s (p ++ [st.title "👤 Profile"]) g).
Proof.
  intros Ha Hu.
  unfold script.profile, script.session_auth, script.get_session, script.bind,
    script.emit. cbn. rewrite Ha. cbn. now rewrite Hu.
Qed.

(** *** A run with a login recorded *)

Lemma rerun_logged_in (i : Inputs) s rs :
  session_state.is_logged_in s = true ->
  rerun s rs i
  = script.selected E UploadedFile csv_exn read_csv i
      (script.mkRun s script.chrome rs).
Proof.
  intros Hin. unfold script.rerun. now rewrite main_logged_in.
Qed.

Lemma logged_in_auth s :
  session_state.is_logged_in s = true ->
  exists a, session_state.auth s = Some a /\ session_state.logged_in a = true.
Proof.
  unfold session_state.is_logged_in.
  destruct (session_state.auth s) as [a |]; [eauto | discriminate].
Qed.

(** Every way a run with a login recorded can go; [tac] closes each. *)
Ltac each_run i s rs Hin :=
  rewrite (rerun_logged_in i s rs Hin);
  let a := fresh "a" in
  let Ha := fresh "Ha" in
  let Hlog := fresh "Hlog" in
  destruct (logged_in_auth s Hin) as (a & Ha & Hlog);
  unfold script.selected;
  let Hnav := fresh "Hnav" in
  destruct (script.nav_index i) as [| [| [| [| ?]]]] eqn:Hnav;
  [ | let u := fresh "u" in
      let Hu := fresh "Hu" in
      destruct (session_state.user a) as [u |] eqn:Hu;
      [ rewrite (profile_run i s _ rs a u Ha Hu)
      | rewrite (profile_no_user i s _ rs a Ha Hu) ]
    | rewrite history_run
    | rewrite settings_run
    | ];
  try (let src := fresh "src" in
       let Hsrc := fresh "Hsrc" in
       destruct (script.source i) as [src |] eqn:Hsrc;
       [ let df := fresh "df" in
         let e := fresh "e" in
         let Hread := fresh "Hread" in
         destruct (read_csv src) as [e | df] eqn:Hread;
         [ rewrite (dashboard_unreadable i s _ rs src e Hsrc Hread)
         | let w := fresh "w" in
           let result := fresh "result" in
           let x := fresh "x" in
           let Hcall := fresh "Hcall" in
           destruct (app.call E df rs) as [[x | result] w] eqn:Hcall;
           [ rewrite (dashboard_unscored i s _ rs src df x w Hsrc Hread Hcall)
           | rewrite (dashboard_scored i s _ rs src df result w Hsrc Hread Hcall) ] ]
       | rewrite (dashboard_idle i s _ rs Hsrc) ]).

Lemma auth_kept (i : Inputs) s rs :
  session_state.is_logged_in s = true ->
  session_state.auth (script.session (snd (rerun s rs i))) = session_state.auth s.
Proof.
  intros Hin. each_run i s rs Hin; reflexivity.
Qed.

(** *** Logging in *)

(** X1.  A run on a session with no login recorded shows the login form and
    one message, then stops: no page is dispatched, no file is read, nothing
    is scored (the generator is where it was) and the kept analyses are
    untouched.  It records a login exactly when the form was submitted with
    a username and a password that are both non-empty, and then under that
    username and the chosen role; the password is compared with nothing. *)
Theorem run_without_login_stops_at_form :
  forall (i : Inputs) s rs,
    session_state.is_logged_in s = false ->
    exists r,
      rerun s rs i = (script.Stopped, r) /\
      script.page r
      = script.login_form
        ++ [if script.submit i && script.truthy (script.username i)
               && script.truthy (script.password i)
            then st.success ("Logged in as " ++ script.username i ++ " ("
                             ++ st.chosen script.roles (script.role_index i) ++ ")")
            else st.error "Please enter credentials."] /\
      script.np_random r = rs /\
      session_state.history (script.session r) = session_state.history s /\
      session_state.is_logged_in (script.session r)
      = script.submit i && script.truthy (script.username i)
        && script.truthy (script.password i) /\
      (session_state.is_logged_in (script.session r) = true ->
       session_state.auth (script.session r)
       = Some {| session_state.logged_in := true;
                 session_state.role :=
                   Some (st.chosen script.roles (script.role_index i));
                 session_state.user := Some (script.username i) |}).
Proof.
  intros i s rs Hout. eexists. split.
  - unfold script.rerun. now apply main_logged_out.
  - cbn [script.page script.np_random script.session app_nil_l].
    unfold script.after_login, script.login_message.
    fold (script.accepted i).
    split; [reflexivity |]. split; [reflexivity |].
    unfold session_state.is_logged_in in *.
    destruct (script.accepted i); cbn.
    + auto.
    + destruct (session_state.auth s) as [a |] eqn:Ha; cbn.
      * rewrite Ha. repeat split; auto. congruence.
      * repeat split; auto. discriminate.
Qed.

Lemma logged_out_step (i : Inputs) s rs :
  session_state.is_logged_in s = false ->
  let s' := script.session (snd (rerun s rs i)) in
  session_state.is_logged_in s' = script.accepted i /\
  (script.accepted i = true -> session_state.auth s' = Some (script.recorded i)).
Proof.
  intros Hout s'. subst s'. unfold script.rerun.
  rewrite main_logged_out by exact Hout.
  cbn [snd script.session]. unfold script.after_login, session_state.is_logged_in in *.
  destruct (script.accepted i); cbn.
  - auto.
  - split; [| discriminate].
    destruct (session_state.auth s) as [a |] eqn:Ha; cbn; [now rewrite Ha | reflexivity].
Qed.

Lemma visit_keeps_auth (inputs : list Inputs) :
  forall s rs,
    session_state.is_logged_in s = true ->
    session_state.auth (fst (visit s rs inputs)) = session_state.auth s.
Proof.
  induction inputs as [| i inputs IH]; intros s rs Hin; cbn [script.visit fst].
  - reflexivity.
  - pose proof (auth_kept i s rs Hin) as Hkept.
    rewrite IH.
    + exact Hkept.
    + unfold session_state.is_logged_in in *. now rewrite Hkept.
Qed.

(** X2.  Once a login is recorded nothing changes it: whatever the runs of
    a visit select, read or raise, the recorded user and role stay as they
    are, and no run logs out. *)
Theorem recorded_login_is_kept :
  forall (inputs : list Inputs) s rs,
    session_state.is_logged_in s = true ->
    session_state.auth (fst (visit s rs inputs)) = session_state.auth s /\
    session_state.is_logged_in (fst (visit s rs inputs)) = true.
Proof.
  intros inputs s rs Hin.
  pose proof (visit_keeps_auth inputs s rs Hin) as Hkept.
  split; [exact Hkept |].
  unfold session_state.is_logged_in in *. now rewrite Hkept.
Qed.

Lemma visit_login (inputs : list Inputs) :
  forall s rs,
    session_state.is_logged_in s = false ->
    session_state.is_logged_in (fst (visit s rs inputs))
    = existsb script.accepted inputs /\
    (forall i, find script.accepted inputs = Some i ->
               session_state.auth (fst (visit s rs inputs))
               = Some (script.recorded i)).
Proof.
  induction inputs as [| i inputs IH]; intros s rs Hout; cbn [script.visit existsb find fst].
  - split; [exact Hout | discriminate].
  - destruct (logged_out_step i s rs Hout) as [Hlog Hauth].
    destruct (script.accepted i) eqn:Hacc; cbn [orb].
    + assert (Hkept := visit_keeps_auth inputs _
                         (script.np_random (snd (rerun s rs i))) Hlog).
      split.
      * unfold session_state.is_logged_in in *. rewrite Hkept.
        exact Hlog.
      * intros i0 Hi0. injection Hi0 as <-. rewrite Hkept. now apply Hauth.
    + now apply IH.
Qed.

(** X3.  Over a visit that starts without a login, a login is recorded at
    the end exactly when one of its runs submitted the form with a non-empty
    username and password; what is recorded is the username and role of the
    first such run. *)
Theorem login_is_first_accepted_form :
  forall (inputs : list Inputs) s rs,
    session_state.is_logged_in s = false ->
    session_state.is_logged_in (fst (visit s rs inputs))
    = existsb
        (fun i => script.submit i && script.truthy (script.username i)
                  && script.truthy (script.password i))
        inputs /\
    (forall i,
        find (fun i => script.submit i && script.truthy (script.username i)
                       && script.truthy (script.password i))
             inputs = Some i ->
        session_state.auth (fst (visit s rs inputs))
        = Some {| session_state.logged_in := true;
                  session_state.role :=
                    Some (st.chosen script.roles (script.role_index i));
                  session_state.user := Some (script.username i) |}).
Proof.
  intros inputs s rs Hout. exact (visit_login inputs s rs Hout).
Qed.

(** *** Look-ups *)

Lemma names_user_step (i : Inputs) s rs :
  session_state.names_user s -> session_state.names_user (script.session (snd (rerun s rs i))).
Proof.
  intros Hs. destruct (session_state.is_logged_in s) eqn:Hin.
  - unfold session_state.names_user. now rewrite (auth_kept i s rs Hin).
  - destruct (logged_out_step i s rs Hin) as [Hlog Hauth].
    intros a Ha Hla.
    assert (Hacc : script.accepted i = true).
    { rewrite <- Hlog. unfold session_state.is_logged_in. now rewrite Ha. }
    rewrite (Hauth Hacc) in Ha. injection Ha as <-. discriminate.
Qed.

Lemma names_user_visit (inputs : list Inputs) :
  forall s rs, session_state.names_user s -> session_state.names_user (fst (visit s rs inputs)).
Proof.
  induction inputs as [| i inputs IH]; intros s rs Hs; cbn [script.visit fst].
  - exact Hs.
  - apply IH. now apply names_user_step.
Qed.

(** X4.  In a visit that starts on a fresh session, a run can end in an
    exception in two ways only: [pd.read_csv] raised on the demo file or on
    the upload, or [detect_fraud] raised on the table read.  None of the
    look-ups of the script ([st.session_state.auth], [auth['user']],
    [pages[nav]], [result['Risk Score']]) ever fails. *)
Theorem only_reading_and_scoring_raise :
  forall (inputs : list Inputs) rs0 (i : Inputs) e r,
    rerun (fst (visit session_state.empty rs0 inputs))
          (snd (visit session_state.empty rs0 inputs)) i
    = (script.Raised e, r) ->
    exists src,
      script.source i = Some src /\
      ((exists c, read_csv src = inl c /\ e = script.Csv c) \/
       (exists df x w,
           read_csv src = inr df /\
           app.call E df (snd (visit session_state.empty rs0 inputs)) = (inl x, w) /\
           e = script.Py x)).
Proof.
  intros inputs rs0 i e r.
  assert (Hnames : session_state.names_user (fst (visit session_state.empty rs0 inputs))).
  { apply names_user_visit. intros a Ha. discriminate. }
  destruct (visit session_state.empty rs0 inputs) as [s rs]. cbn [fst snd] in *.
  destruct (session_state.is_logged_in s) eqn:Hin.
  - each_run i s rs Hin; intros Hrun; try discriminate;
      try (exfalso; now apply (Hnames a Ha Hlog));
      injection Hrun as <- _; eexists; (split; [reflexivity |]); eauto 8.
  - unfold script.rerun. rewrite main_logged_out by exact Hin. discriminate.
Qed.

(** *** The kept analyses *)

(** X5.  A run adds to the kept analyses in one case only: a login is
    recorded, the navigation is on the dashboard, a table was read and
    [detect_fraud] returned; then the run ends normally and the returned
    frame is appended.  Every other run, however it ends, leaves the kept
    analyses as they were. *)
Theorem only_a_scored_table_is_kept :
  forall (i : Inputs) s rs o r,
    rerun s rs i = (o, r) ->
    (exists src df result w,
        session_state.is_logged_in s = true /\
        script.nav_index i <> 1%nat /\
        script.nav_index i <> 2%nat /\
        script.nav_index i <> 3%nat /\
        script.source i = Some src /\
        read_csv src = inr df /\
        app.call E df rs = (inr result, w) /\
        o = script.Done tt /\
        session_state.history (script.session r)
        = Some (session_state.entries s ++ [result]) /\
        script.np_random r = app.np_random E w) \/
    session_state.history (script.session r) = session_state.history s.
Proof.
  intros i s rs o r.
  destruct (session_state.is_logged_in s) eqn:Hin.
  - each_run i s rs Hin; intros Hrun; injection Hrun as <- <-;
      try (right; reflexivity);
      left; exists src, df, result, w; repeat split; auto; discriminate.
  - unfold script.rerun. rewrite main_logged_out by exact Hin.
    intros Hrun. injection Hrun as <- <-. right.
    cbn [script.session]. unfold script.after_login.
    destruct (script.accepted i); [reflexivity |].
    now destruct (session_state.auth s).
Qed.

(** *** The history page *)

Lemma enumerate_nth {A : Type} (d : A) (l : list A) :
  forall start,
    script.enumerate l start
    = map (fun k => (k, nth (k - start) l d)) (seq start (length l)).
Proof.
  unfold script.enumerate.
  induction l as [| x l IH]; intros start; cbn [length seq combine map].
  - reflexivity.
  - rewrite Nat.sub_diag. cbn [nth]. f_equal.
    rewrite IH. apply map_ext_in. intros k Hk. apply in_seq in Hk.
    replace (k - start)%nat with (S (k - S start)) by lia. reflexivity.
Qed.

Lemma nth_rev_last {A : Type} (d : A) (h : list A) (k : nat) :
  (1 <= k <= Nat.min 5 (length h))%nat ->
  nth (k - 1) (rev (script.last 5 h)) d = nth (length h - k) h d.
Proof.
  intros Hk. unfold script.last.
  rewrite rev_nth by (rewrite length_skipn; lia).
  rewrite nth_skipn, length_skipn. f_equal. lia.
Qed.

Lemma length_rev_last {A : Type} (h : list A) :
  length (rev (script.last 5 h)) = Nat.min 5 (length h).
Proof. unfold script.last. rewrite length_rev, length_skipn. lia. Qed.

(** X6.  With a login recorded and the navigation on "History", the run
    shows the five most recent kept analyses, or all of them when there are
    fewer, newest first: "Session k" is the k-th most recent one, cut to
    its first ten rows.  Without the key it shows "No past sessions.".  The
    run changes neither the session nor the generator. *)
Theorem history_shows_latest_five :
  forall (i : Inputs) s rs,
    session_state.is_logged_in s = true ->
    script.nav_index i = 2%nat ->
    rerun s rs i
    = (script.Done tt,
       script.mkRun s
         (script.chrome
          ++ st.title "📁 History"
          :: match session_state.history s with
             | Some h =>
                 flat_map
                   (fun k =>
                      [st.expander ("Session " ++ script.str_nat k);
                       st.dataframe
                         (pandas.head 10 (nth (length h - k) h no_frame))])
                   (seq 1 (Nat.min 5 (length h)))
             | None => [st.info "No past sessions."]
             end)
         rs) /\
    (forall d, (pd.index (pandas.head 10 d) <= 10)%nat).
Proof.
  intros i s rs Hin Hnav. split.
  - rewrite (rerun_logged_in i s rs Hin). unfold script.selected. rewrite Hnav.
    rewrite history_run. unfold script.history_view.
    destruct (session_state.history s) as [h |]; [| reflexivity].
    do 3 f_equal.
    rewrite (enumerate_nth no_frame), length_rev_last.
    rewrite !flat_map_concat_map, map_map.
    apply (f_equal (cons _)). apply (f_equal (@concat _)).
    apply map_ext_in. intros k Hk. apply in_seq in Hk. cbn [fst snd].
    now rewrite nth_rev_last by lia.
  - intros d. unfold pandas.head. cbn [pd.index]. apply Nat.le_min_l.
Qed.

(** *** A scored table on the dashboard *)

Lemma mean_floats_finite (qs : list Q) :
  qs <> [] ->
  pandas.mean_floats (map Finite qs)
  = Finite (Qred (pandas.Qsum qs / inject_Z (Z.of_nat (length qs)))).
Proof.
  intros Hne. unfold pandas.mean_floats.
  assert (Hfilter : filter (fun x => negb (pandas.is_nan x)) (map Finite qs)
                    = map Finite qs).
  { induction qs as [| q qs IH]; cbn; [reflexivity |].
    destruct qs; [reflexivity |]. f_equal. apply IH. discriminate. }
  rewrite Hfilter.
  assert (Hpos : existsb pandas.is_posinf (map Finite qs) = false)
    by (clear; induction qs; cbn; auto).
  assert (Hneg : existsb pandas.is_neginf (map Finite qs) = false)
    by (clear; induction qs; cbn; auto).
  assert (Hfin : pandas.finite_part (map Finite qs) = qs)
    by (clear; unfold pandas.finite_part; induction qs; cbn; congruence).
  rewrite Hpos, Hneg, Hfin, length_map.
  destruct qs; [contradiction | reflexivity].
Qed.

Lemma returned_needs_rows df g result w :
  app.call E df g = (inr result, w) -> (0 < pd.index df)%nat.
Proof.
  intros Hcall.
  destruct (call_inversion E _ _ _ _ Hcall) as (m & rs' & Hfit & _).
  unfold sklearn.fit, sklearn.check_array in Hfit.
  cbn [pd.select_dtypes_number pd.index] in Hfit.
  destruct (pd.index df); [discriminate | lia].
Qed.

Lemma returned_counts df g result w :
  app.call E df g = (inr result, w) ->
  (app.count_status result app.Suspicious + app.count_status result app.Normal
   = pd.index df)%nat.
Proof.
  intros Hcall.
  destruct (call_inversion E _ _ _ _ Hcall) as (m & rs' & _ & Hlen & -> & _).
  unfold app.count_status. rewrite annotated_status.
  rewrite count_two_labels.
  - now rewrite length_status_labels, length_predict.
  - discriminate.
  - apply status_labels_binary.
Qed.

(** X7.  With a login recorded and the navigation on the dashboard, a table
    that is read and scored ends the run normally: the page shows the
    frame [detect_fraud] returned, offers that frame for download and keeps
    it as the newest analysis.  The two counters shown add up to the number
    of rows read, and the average shown is a finite number, the mean of the
    risk scores of all rows. *)
Theorem scored_table_is_shown_and_kept :
  forall (i : Inputs) s rs src df result w,
    session_state.is_logged_in s = true ->
    script.nav_index i <> 1%nat ->
    script.nav_index i <> 2%nat ->
    script.nav_index i <> 3%nat ->
    script.source i = Some src ->
    read_csv src = inr df ->
    app.call E df rs = (inr result, w) ->
    rerun s rs i
    = (script.Done tt,
       script.mkRun
         {| session_state.auth := session_state.auth s;
            session_state.history := Some (session_state.entries s ++ [result]) |}
         (script.chrome ++ script.dashboard_head i ++ script.report result)
         (app.np_random E w)) /\
    (app.count_status result app.Suspicious + app.count_status result app.Normal
     = pd.index df)%nat /\
    exists risks,
      pd.lookup "Risk Score" (pd.columns result) = Some (pd.Float64 (map Finite risks)) /\
      length risks = pd.index df /\
      (0 < pd.index df)%nat /\
      script.avg_risk result
      = Finite (Qred (pandas.Qsum risks / inject_Z (Z.of_nat (pd.index df)))).
Proof.
  intros i s rs src df result w Hin H1 H2 H3 Hsrc Hread Hcall.
  split; [| split].
  - rewrite (rerun_logged_in i s rs Hin). unfold script.selected.
    destruct (script.nav_index i) as [| [| [| [| n]]]]; try contradiction;
      now rewrite (dashboard_scored i s _ rs src df result w Hsrc Hread Hcall).
  - exact (returned_counts _ _ _ _ Hcall).
  - pose proof (returned_needs_rows _ _ _ _ Hcall) as Hrows.
    destruct (call_inversion E _ _ _ _ Hcall) as (m & rs' & _ & Hlen & -> & _).
    exists (map (fun d => np.round (d * -(100)) 2)
                (sklearn.decision_function E m (pd.select_dtypes_number df))).
    assert (Hlen' : length (map (fun d => np.round (d * -(100)) 2)
                              (sklearn.decision_function E m (pd.select_dtypes_number df)))
                    = pd.index df).
    { rewrite <- Hlen. unfold sklearn.decision_function, sklearn.score_samples,
        sklearn.raw_scores. now rewrite !length_map. }
    split; [| split; [exact Hlen' | split; [exact Hrows |]]].
    + rewrite annotated_risk. unfold app.risk_scores. now rewrite map_map.
    + unfold script.avg_risk. rewrite annotated_risk.
      unfold app.risk_scores. rewrite <- (map_map _ Finite).
      rewrite mean_floats_finite, Hlen'; [reflexivity |].
      intros Hnil. rewrite Hnil in Hlen'. cbn in Hlen'. lia.
Qed.

(** *** The pages that change nothing *)

Lemma chosen_role (n : nat) : In (st.chosen script.roles n) script.roles.
Proof.
  unfold st.chosen, script.roles.
  destruct n as [| [| [| [| n]]]]; cbn; auto.
Qed.

Lemma visit_logged_in (inputs : list Inputs) rs0 :
  session_state.is_logged_in (fst (visit session_state.empty rs0 inputs)) = true ->
  exists i0,
    find script.accepted inputs = Some i0 /\
    session_state.auth (fst (visit session_state.empty rs0 inputs))
    = Some (script.recorded i0).
Proof.
  intros Hin.
  destruct (visit_login inputs session_state.empty rs0 eq_refl) as [Hlog Hauth].
  rewrite Hin in Hlog.
  destruct (find script.accepted inputs) as [i0 |] eqn:Hfind.
  - exists i0. split; [reflexivity |]. now apply Hauth.
  - exfalso. symmetry in Hlog. apply existsb_exists in Hlog.
    destruct Hlog as (x & Hx & Hacc).
    now rewrite (find_none _ _ Hfind x Hx) in Hacc.
Qed.

(** X15.  In a visit that starts on a fresh session, the profile page shows
    what the login recorded: the username typed into the first accepted
    form and the role chosen there, which is one of Admin, Analyst and
    Viewer, followed by the time of this run.  Later forms change neither. *)
Theorem profile_shows_recorded_login :
  forall (inputs : list Inputs) rs0 (i : Inputs),
    session_state.is_logged_in (fst (visit session_state.empty rs0 inputs)) = true ->
    script.nav_index i = 1%nat ->
    exists i0,
      find (fun i => script.submit i && script.truthy (script.username i)
                     && script.truthy (script.password i))
           inputs = Some i0 /\
      In (st.chosen script.roles (script.role_index i0)) script.roles /\
      rerun (fst (visit session_state.empty rs0 inputs))
            (snd (visit session_state.empty rs0 inputs)) i
      = (script.Done tt,
         script.mkRun
           (fst (visit session_state.empty rs0 inputs))
           (script.chrome
            ++ [st.title "👤 Profile";
                st.write ("**Username:** " ++ script.username i0);
                st.write ("**Role:** "
                          ++ st.chosen script.roles (script.role_index i0));
                st.write ("**Logged in at:** " ++ script.now i)])
           (snd (visit session_state.empty rs0 inputs))).
Proof.
  intros inputs rs0 i Hin Hnav.
  destruct (visit_logged_in inputs rs0 Hin) as (i0 & Hfind & Hauth).
  exists i0. split; [exact Hfind |]. split; [apply chosen_role |].
  rewrite (rerun_logged_in i _ _ Hin). unfold script.selected. rewrite Hnav.
  now rewrite (profile_run i _ _ _ _ _ Hauth eq_refl).
Qed.

(** X16.  Profile, History and Settings only show: in a visit that starts
    on a fresh session, a run on one of them ends normally and leaves the
    session and the random generator exactly as they were.  In particular
    the "Sensitivity" slider and the auto-refresh box change nothing. *)
Theorem other_pages_only_show :
  forall (inputs : list Inputs) rs0 (i : Inputs),
    session_state.is_logged_in (fst (visit session_state.empty rs0 inputs)) = true ->
    script.nav_index i = 1%nat \/ script.nav_index i = 2%nat
    \/ script.nav_index i = 3%nat ->
    exists shown,
      rerun (fst (visit session_state.empty rs0 inputs))
            (snd (visit session_state.empty rs0 inputs)) i
      = (script.Done tt,
         script.mkRun (fst (visit session_state.empty rs0 inputs))
                      (script.chrome ++ shown)
                      (snd (visit session_state.empty rs0 inputs))).
Proof.
  intros inputs rs0 i Hin Hnav.
  destruct (visit_logged_in inputs rs0 Hin) as (i0 & _ & Hauth).
  rewrite (rerun_logged_in i _ _ Hin). unfold script.selected.
  destruct Hnav as [-> | [-> | ->]].
  - rewrite (profile_run i _ _ _ _ _ Hauth eq_refl). eauto.
  - rewrite history_run. eauto.
  - rewrite settings_run. eauto.
Qed.

End Pages.

(** *** The pages, on Ada's visit *)

Lemma run_without_login_stops_at_form_witness :
  session_state.is_logged_in
    (script.session
       (snd (script.rerun first_column_scorer pd.DataFrame string parsed
               session_state.empty 0%nat ada_logs_in)))
  = true.
Proof.
  destruct (run_without_login_stops_at_form first_column_scorer pd.DataFrame
              string parsed ada_logs_in session_state.empty 0%nat eq_refl)
    as (r & Hrun & _ & _ & _ & Hlog & _).
  rewrite Hrun. cbn [snd]. rewrite Hlog. reflexivity.
Defined.

Lemma recorded_login_is_kept_witness :
  session_state.auth (fst ada_visit)
  = Some {| session_state.logged_in := true;
            session_state.role := Some "Analyst";
            session_state.user := Some "ada" |}.
Proof.
  exact (proj1 (recorded_login_is_kept first_column_scorer pd.DataFrame string
                  parsed [opens 0; opens 0]
                  {| session_state.auth :=
                       Some {| session_state.logged_in := true;
                               session_state.role := Some "Analyst";
                               session_state.user := Some "ada" |};
                     session_state.history := None |}
                  0%nat eq_refl)).
Defined.

Lemma login_is_first_accepted_form_witness :
  session_state.is_logged_in (fst ada_visit) = true.
Proof.
  exact (proj1 (login_is_first_accepted_form first_column_scorer pd.DataFrame
                  string parsed [ada_logs_in; opens 0; opens 0]
                  session_state.empty 0%nat eq_refl)).
Defined.

(** Uploading a table of names only: [detect_fraud] raises, the run ends in
    its exception. *)
Lemma only_reading_and_scoring_raise_witness :
  exists src,
    script.source (uploads demo_names_only) = Some src /\
    ((exists c, parsed src = inl c
                /\ script.Py (ValueError "at least one array or dtype is required")
                   = script.Csv c) \/
     (exists df x w,
         parsed src = inr df /\
         app.call first_column_scorer df 0%nat = (inl x, w) /\
         @script.Py string (ValueError "at least one array or dtype is required")
         = script.Py x)).
Proof.
  refine (only_reading_and_scoring_raise first_column_scorer pd.DataFrame string
            parsed [ada_logs_in] 0%nat (uploads demo_names_only) _ _ _).
  vm_compute. reflexivity.
Defined.

Lemma only_a_scored_table_is_kept_witness :
  length (session_state.entries
            (script.session
               (snd (script.rerun first_column_scorer pd.DataFrame string parsed
                       (fst ada_visit) (snd ada_visit) (opens 0)))))
  = 3%nat.
Proof.
  destruct (only_a_scored_table_is_kept first_column_scorer pd.DataFrame string
              parsed (opens 0) (fst ada_visit) (snd ada_visit) _ _
              (surjective_pairing _))
    as [(src & df & result & w & _ & _ & _ & _ & _ & _ & _ & _ & Hkept & _) | Hsame].
  - unfold session_state.entries at 1. rewrite Hkept.
    rewrite length_app. reflexivity.
  - exfalso. vm_compute in Hsame. discriminate Hsame.
Defined.

Lemma history_shows_latest_five_witness :
  fst (script.rerun first_column_scorer pd.DataFrame string parsed
         (fst ada_visit) (snd ada_visit) (opens 2))
  = script.Done tt.
Proof.
  rewrite (proj1 (history_shows_latest_five first_column_scorer pd.DataFrame
                    string parsed (opens 2) (fst ada_visit) (snd ada_visit)
                    eq_refl eq_refl)).
  reflexivity.
Defined.

Lemma scored_table_is_shown_and_kept_witness :
  (app.count_status
     (app.frame _ (snd (app.call first_column_scorer demo (snd ada_visit))))
     app.Suspicious
   + app.count_status
       (app.frame _ (snd (app.call first_column_scorer demo (snd ada_visit))))
       app.Normal
   = 5)%nat.
Proof.
  refine (proj1 (proj2 (scored_table_is_shown_and_kept first_column_scorer
                          pd.DataFrame string parsed (opens 0)
                          (fst ada_visit) (snd ada_visit)
                          (inl "sample_transaction.csv") demo _ _
                          eq_refl _ _ _ eq_refl eq_refl _))).
  - discriminate.
  - discriminate.
  - discriminate.
  - vm_compute. reflexivity.
Defined.

Lemma profile_shows_recorded_login_witness :
  fst (script.rerun first_column_scorer pd.DataFrame string parsed
         (fst ada_visit) (snd ada_visit) (opens 1))
  = script.Done tt.
Proof.
  assert (Hin : session_state.is_logged_in (fst ada_visit) = true)
    by (vm_compute; reflexivity).
  destruct (profile_shows_recorded_login first_column_scorer pd.DataFrame string
              parsed [ada_logs_in; opens 0; opens 0] 0%nat (opens 1)
              Hin eq_refl) as (i0 & _ & _ & Hrun).
  exact (f_equal fst Hrun).
Defined.

Lemma other_pages_only_show_witness :
  script.session
    (snd (script.rerun first_column_scorer pd.DataFrame string parsed
            (fst ada_visit) (snd ada_visit) (opens 3)))
  = fst ada_visit.
Proof.
  assert (Hin : session_state.is_logged_in (fst ada_visit) = true)
    by (vm_compute; reflexivity).
  destruct (other_pages_only_show first_column_scorer pd.DataFrame string
              parsed [ada_logs_in; opens 0; opens 0] 0%nat (opens 3)
              Hin (or_intror (or_intror eq_refl))) as (shown & Hrun).
  unfold ada_visit. rewrite Hrun. reflexivity.
Defined.

(** * More about [detect_fraud] *)

(** ** Rounding, further *)

Lemma rint_near_floor x :
  (Qfloor x <= np.rint x <= Qfloor x + 1)%Z.
Proof.
  unfold np.rint.
  destruct (Qcompare (x - inject_Z (Qfloor x)) (1 # 2));
    [destruct (Z.even (Qfloor x)) | |]; lia.
Qed.

Lemma rint_mono x y : x <= y -> (np.rint x <= np.rint y)%Z.
Proof.
  intros Hxy.
  pose proof (Qfloor_resp_le x y Hxy) as Hfloor.
  destruct (Z.eq_dec (Qfloor x) (Qfloor y)) as [Heq | Hne].
  - unfold np.rint. rewrite Heq.
    destruct (Qcompare (x - inject_Z (Qfloor y)) (1 # 2)) eqn:Hx,
             (Qcompare (y - inject_Z (Qfloor y)) (1 # 2)) eqn:Hy;
      try (destruct (Z.even (Qfloor y))); try lia; exfalso;
      first [apply Qeq_alt in Hx | apply Qlt_alt in Hx | apply Qgt_alt in Hx];
      first [apply Qeq_alt in Hy | apply Qlt_alt in Hy | apply Qgt_alt in Hy];
      lra.
  - pose proof (rint_near_floor x). pose proof (rint_near_floor y). lia.
Qed.

Lemma round2_mono x y : x <= y -> np.round x 2 <= np.round y 2.
Proof.
  intros Hxy. rewrite !round2_value.
  assert (H : (np.rint (x * 100) <= np.rint (y * 100))%Z) by (apply rint_mono; lra).
  rewrite Zle_Qle in H.
  apply Qle_shift_div_l; [lra |].
  assert (Hcancel : inject_Z (np.rint (x * 100)) / 100 * 100
                    == inject_Z (np.rint (x * 100))) by field.
  rewrite Hcancel. exact H.
Qed.

(** ** Risk against the scores *)

(** X9.  "Higher score = more unusual": in a returned frame the risk score
    never decreases with the anomaly score.  Of two rows, the one the forest
    scores higher has a risk score at least as high. *)
Theorem risk_follows_anomaly_score :
  forall (E : Estimator) df rs m rs' result w i j si sj ri rj,
    sklearn.fit E app.new_model (pd.select_dtypes_number df) rs = inr (m, rs') ->
    app.call E df rs = (inr result, w) ->
    nth_error (anomaly_score E (sklearn.estimators_ E m) (pd.select_dtypes_number df)) i
      = Some si ->
    nth_error (anomaly_score E (sklearn.estimators_ E m) (pd.select_dtypes_number df)) j
      = Some sj ->
    app.risk_at result i = Some (Finite ri) ->
    app.risk_at result j = Some (Finite rj) ->
    si <= sj ->
    ri <= rj.
Proof.
  intros E df rs m rs' result w i j si sj ri rj Hfit Hcall Hi Hj Hri Hrj Hle.
  rewrite (call_result E _ _ _ _ Hfit _ _ Hcall) in Hri, Hrj.
  rewrite row_risk, row_decision in Hri, Hrj.
  rewrite Hi in Hri. rewrite Hj in Hrj. cbn [option_map] in Hri, Hrj.
  injection Hri as <-. injection Hrj as <-.
  apply round2_mono. lra.
Qed.

(** On [demo]: the first row scores 0.40, the last 0.90. *)
Lemma risk_follows_anomaly_score_witness :
  (-36 # 1) <= 14.
Proof.
  refine (risk_follows_anomaly_score first_column_scorer demo 0%nat
            (sklearn.mkFitted first_column_scorer 0%nat (-(19 # 25))) 1%nat
            _ _ 0%nat 4%nat (2 # 5) (9 # 10) (-36 # 1) 14 _ _ _ _ _ _ _).
  - vm_compute. reflexivity.
  - vm_compute. reflexivity.
  - reflexivity.
  - reflexivity.
  - vm_compute. reflexivity.
  - vm_compute. reflexivity.
  - discriminate.
Defined.

(** ** Severity against status *)

Lemma cut_inversion r l :
  pd.cut1 (Finite r) app.severity_bins app.severity_labels = Some l ->
  (l = "Low" /\ -(1) < r <= 30) \/
  (l = "Medium" /\ 30 < r <= 60) \/
  (l = "High" /\ 60 < r <= 9999).
Proof.
  unfold app.severity_bins, app.severity_labels. cbn [pd.cut1 bound_lt le_bound].
  destruct (Qltb (-(1)) r) eqn:H1; [apply Qltb_lt in H1 | apply Qltb_ge in H1];
  destruct (Qle_bool r 30) eqn:H2; [apply Qle_bool_iff in H2 | apply Qle_bool_gt in H2 | apply Qle_bool_iff in H2 | apply Qle_bool_gt in H2];
  destruct (Qltb 30 r) eqn:H3; [apply Qltb_lt in H3 | apply Qltb_ge in H3 | apply Qltb_lt in H3 | apply Qltb_ge in H3 | apply Qltb_lt in H3 | apply Qltb_ge in H3 | apply Qltb_lt in H3 | apply Qltb_ge in H3];
  destruct (Qle_bool r 60) eqn:H4;
  destruct (Qltb 60 r) eqn:H5;
  destruct (Qle_bool r 9999) eqn:H6;
  cbn [andb]; intros Hl; try discriminate; injection Hl as <-;
  try apply Qle_bool_iff in H4; try apply Qle_bool_gt in H4;
  try apply Qltb_lt in H5; try apply Qltb_ge in H5;
  try apply Qle_bool_iff in H6; try apply Qle_bool_gt in H6;
  first [ left; split; [reflexivity | lra]
        | right; left; split; [reflexivity | lra]
        | right; right; split; [reflexivity | lra]
        | exfalso; lra ].
Qed.

(** X11.  Severity and status never pull apart: a row tiered Medium or High
    is Suspicious, and a Normal row is Low or has no severity. *)
Theorem severity_agrees_with_status :
  forall (E : Estimator) df rs result w i,
    app.call E df rs = (inr result, w) ->
    (app.severity_at result i = Some (Some "Medium") \/
     app.severity_at result i = Some (Some "High") ->
     app.status_at result i = Some app.Suspicious) /\
    (app.status_at result i = Some app.Normal ->
     app.severity_at result i = Some (Some "Low") \/
     app.severity_at result i = Some None).
Proof.
  intros E df rs result w i Hcall.
  destruct (call_inversion E _ _ _ _ Hcall) as (m & rs' & _ & _ & -> & _).
  rewrite annotated_severity_at, row_risk, row_status.
  destruct (nth_error (sklearn.decision_function E m (pd.select_dtypes_number df)) i)
    as [d |]; cbn [option_map]; [| split; [intros [H | H] | intros H]; discriminate].
  set (r := np.round (d * -(100)) 2).
  destruct (Qltb d 0) eqn:Hd; [apply Qltb_lt in Hd | apply Qltb_ge in Hd].
  - split; [reflexivity | discriminate].
  - assert (Hr : r <= 0).
    { change 0 with (inject_Z 0). apply round2_le. change (inject_Z 0) with 0. lra. }
    split.
    + intros [H | H]; injection H as H; apply cut_inversion in H;
        destruct H as [[H _] | [[_ H] | [_ H]]]; try discriminate; lra.
    + intros _. destruct (Qlt_le_dec (-(1)) r) as [Hin | Hout].
      * left. now rewrite cut_low by lra.
      * right. now rewrite cut_missing by (left; exact Hout).
Qed.

(** On [demo]: the first row is Normal and has no severity. *)
Lemma severity_agrees_with_status_witness :
  app.severity_at (app.frame _ (snd (app.call first_column_scorer demo 0%nat))) 0
  = Some (Some "Low") \/
  app.severity_at (app.frame _ (snd (app.call first_column_scorer demo 0%nat))) 0
  = Some None.
Proof.
  refine (proj2 (severity_agrees_with_status first_column_scorer demo 0%nat
                   _ _ 0%nat _) _).
  - vm_compute. reflexivity.
  - vm_compute. reflexivity.
Defined.

(** ** How many rows can be flagged *)

Lemma tenth_position (n : nat) :
  (1 <= n)%nat ->
  Qfloor ((inject_Z (Z.of_nat n) - 1) * (100 * (1 # 10) / 100))
  = Z.of_nat ((n - 1) / 10).
Proof.
  intros Hn.
  set (h := (inject_Z (Z.of_nat n) - 1) * (100 * (1 # 10) / 100)).
  pose proof (Nat.div_mod_eq (n - 1) 10) as Hdiv.
  pose proof (Nat.mod_upper_bound (n - 1) 10 ltac:(discriminate)) as Hmod.
  set (q := ((n - 1) / 10)%nat) in *. set (r := ((n - 1) mod 10)%nat) in *.
  assert (Hz : Z.of_nat n = (10 * Z.of_nat q + Z.of_nat r + 1)%Z) by lia.
  assert (Hh : h == inject_Z (Z.of_nat q) + inject_Z (Z.of_nat r) / 10).
  { unfold h. rewrite Hz, !inject_Z_plus, inject_Z_mult.
    change (inject_Z 10) with 10. change (inject_Z 1) with 1. field. }
  assert (Hr0 : 0 <= inject_Z (Z.of_nat r)).
  { change 0 with (inject_Z 0). rewrite <- Zle_Qle. lia. }
  assert (Hr10 : inject_Z (Z.of_nat r) < 10).
  { change 10 with (inject_Z 10). rewrite <- Zlt_Qlt. lia. }
  assert (Hfrac : 0 <= inject_Z (Z.of_nat r) / 10 < 1).
  { split; [apply Qle_shift_div_l | apply Qlt_shift_div_r]; lra. }
  pose proof (Qfloor_le h) as Hlo. pose proof (Qlt_floor h) as Hhi.
  rewrite inject_Z_plus in Hhi. change (inject_Z 1) with 1 in Hhi.
  assert (H1 : (Qfloor h < Z.of_nat q + 1)%Z).
  { rewrite Zlt_Qlt, inject_Z_plus. change (inject_Z 1) with 1. lra. }
  assert (H2 : (Z.of_nat q < Qfloor h + 1)%Z).
  { rewrite Zlt_Qlt, inject_Z_plus. change (inject_Z 1) with 1. lra. }
  lia.
Qed.

(** The tenth percentile lies between the value at position
    [(n - 1) / 10] of the sorted array and the next one. *)
Lemma percentile_tenth_between (a : list Q) :
  a <> [] ->
  let q := ((length a - 1) / 10)%nat in
  nth q (np.sort a) 0 <= np.percentile a (100 * (1 # 10)) /\
  np.percentile a (100 * (1 # 10))
  <= nth (Nat.min (S q) (length a - 1)) (np.sort a) 0.
Proof.
  intros Hne q.
  assert (Hn : (1 <= length a)%nat) by (destruct a; [contradiction | cbn; lia]).
  assert (Hq : (q <= length a - 1)%nat).
  { unfold q. apply Nat.Div0.div_le_upper_bound. lia. }
  unfold np.percentile. rewrite Qred_correct.
  set (h := (inject_Z (Z.of_nat (length a)) - 1) * (100 * (1 # 10) / 100)).
  pose proof (tenth_position (length a) Hn) as Hfloor. fold h in Hfloor.
  pose proof (Qfloor_le h) as Hlo. pose proof (Qlt_floor h) as Hhi.
  rewrite inject_Z_plus in Hhi. change (inject_Z 1) with 1 in Hhi.
  rewrite Hfloor in *. fold q in Hlo, Hhi |- *. rewrite Nat2Z.id.
  set (g := h - inject_Z (Z.of_nat q)).
  assert (Hg : 0 <= g < 1) by (unfold g; lra).
  assert (Hsorted : nth q (np.sort a) 0
                    <= nth (Nat.min (S q) (length a - 1)) (np.sort a) 0).
  { apply sorted_nth_le; [apply sort_strongly_sorted | lia |].
    rewrite length_sort. lia. }
  set (x0 := nth q (np.sort a) 0) in *.
  set (x1 := nth (Nat.min (S q) (length a - 1)) (np.sort a) 0) in *.
  split; nra.
Qed.

Lemma count_at_most (p : Q -> bool) (s : list Q) :
  forall k,
    (forall i, (k <= i)%nat -> (i < length s)%nat -> p (nth i s 0) = false) ->
    (length (filter p s) <= k)%nat.
Proof.
  induction s as [| x s IH]; intros k Hfalse; cbn [filter length].
  - lia.
  - destruct k as [| k].
    + assert (H0 : p x = false) by (apply (Hfalse 0%nat); cbn; lia).
      rewrite H0.
      apply IH. intros i Hi Hlt. apply (Hfalse (S i)); cbn; lia.
    + assert (Hrest : (length (filter p s) <= k)%nat).
      { apply IH. intros i Hi Hlt. apply (Hfalse (S i)); cbn; lia. }
      destruct (p x); cbn [length]; lia.
Qed.

Lemma count_below_percentile_at_most (a : list Q) :
  a <> [] ->
  (length (filter (fun x => Qltb (x - np.percentile a (100 * (1 # 10))) 0) a)
   <= (length a - 1) / 10 + 1)%nat.
Proof.
  intros Hne.
  destruct (percentile_tenth_between a Hne) as [_ Hupper].
  set (off := np.percentile a (100 * (1 # 10))) in *.
  set (q := ((length a - 1) / 10)%nat) in *.
  rewrite (count_permutation _ _ _ (QSort.Permuted_sort a)). fold (np.sort a).
  apply count_at_most. intros i Hi Hlt. rewrite length_sort in Hlt.
  apply Qltb_ge.
  assert (nth (Nat.min (S q) (length a - 1)) (np.sort a) 0 <= nth i (np.sort a) 0).
  { apply sorted_nth_le; [apply sort_strongly_sorted | lia |].
    now rewrite length_sort. }
  lra.
Qed.

(** X12.  Whatever the data, at most one row more than a tenth of the rows
    (rounded down, after setting one row aside) is Suspicious: with [n]
    rows, no more than [(n - 1) / 10 + 1]. *)
Theorem suspicious_rows_at_most_a_tenth :
  forall (E : Estimator) df rs result w,
    app.call E df rs = (inr result, w) ->
    (app.count_status result app.Suspicious <= (pd.index df - 1) / 10 + 1)%nat.
Proof.
  intros E df rs result w Hcall.
  pose proof (returned_needs_rows E _ _ _ _ Hcall) as Hrows.
  destruct (call_inversion E _ _ _ _ Hcall) as (m & rs' & Hfit & Hlen & -> & _).
  rewrite count_suspicious, (fit_offset E _ _ _ _ Hfit).
  assert (Hsize : length (sklearn.score_samples E m (pd.select_dtypes_number df))
                  = pd.index df).
  { unfold sklearn.score_samples, sklearn.raw_scores. now rewrite length_map. }
  rewrite <- Hsize. apply count_below_percentile_at_most.
  intros Hnil. rewrite Hnil in Hsize. cbn in Hsize. lia.
Qed.

(** On [demo]: one Suspicious row of five, and [(5 - 1) / 10 + 1 = 1]. *)
Lemma suspicious_rows_at_most_a_tenth_witness :
  (app.count_status
     (app.frame _ (snd (app.call first_column_scorer demo 0%nat)))
     app.Suspicious
   <= 1)%nat.
Proof.
  refine (suspicious_rows_at_most_a_tenth first_column_scorer demo 0%nat _ _ _).
  vm_compute. reflexivity.
Defined.

(** ** Rows the forest cannot tell apart *)

Lemma percentile_tenth_constant (a : list Q) (c : Q) :
  a <> [] ->
  (forall x, In x a -> x == c) ->
  np.percentile a (100 * (1 # 10)) == c.
Proof.
  intros Hne Hall.
  assert (Hn : (1 <= length a)%nat) by (destruct a; [contradiction | cbn; lia]).
  assert (Hq : ((length a - 1) / 10 <= length a - 1)%nat).
  { apply Nat.Div0.div_le_upper_bound. lia. }
  assert (Hnth : forall i, (i < length a)%nat -> nth i (np.sort a) 0 == c).
  { intros i Hi. apply Hall.
    apply (Permutation_in _ (Permutation_sym (QSort.Permuted_sort a))).
    apply nth_In. fold (np.sort a). now rewrite length_sort. }
  destruct (percentile_tenth_between a Hne) as [Hlower Hupper].
  rewrite Hnth in Hlower by lia. rewrite Hnth in Hupper by lia.
  lra.
Qed.

(** X13.  When the forest gives every row the same anomaly score (as it
    does for identical rows), no row is flagged: each row is Normal, with
    risk score 0.00 and severity Low. *)
Theorem equal_scores_are_all_normal :
  forall (E : Estimator) df rs m rs' result w c i,
    sklearn.fit E app.new_model (pd.select_dtypes_number df) rs = inr (m, rs') ->
    app.call E df rs = (inr result, w) ->
    (forall s,
        In s (anomaly_score E (sklearn.estimators_ E m) (pd.select_dtypes_number df)) ->
        s == c) ->
    (i < pd.index df)%nat ->
    app.status_at result i = Some app.Normal /\
    app.risk_at result i = Some (Finite 0) /\
    app.severity_at result i = Some (Some "Low").
Proof.
  intros E df rs m rs' result w c i Hfit Hcall Hall Hi.
  destruct (call_inversion E _ _ _ _ Hcall) as (m0 & rs0 & Hfit0 & Hlen & _ & _).
  rewrite Hfit in Hfit0. injection Hfit0 as <- <-.
  rewrite (call_result E _ _ _ _ Hfit _ _ Hcall).
  set (scores := anomaly_score E (sklearn.estimators_ E m) (pd.select_dtypes_number df)) in *.
  assert (Hoff : sklearn.offset_ E m == - c).
  { rewrite (fit_offset E _ _ _ _ Hfit).
    unfold sklearn.score_samples, sklearn.raw_scores. fold scores.
    apply percentile_tenth_constant.
    - intros Hnil. apply (f_equal (@length Q)) in Hnil.
      rewrite length_map in Hnil. cbn in Hnil. lia.
    - intros x Hx. apply in_map_iff in Hx. destruct Hx as (s & <- & Hs).
      now rewrite (Hall s Hs). }
  destruct (nth_error scores i) as [s |] eqn:Hs;
    [| apply nth_error_None in Hs; lia].
  assert (Hsc : s == c) by (apply Hall; eapply nth_error_In; exact Hs).
  assert (Hd : (- s - sklearn.offset_ E m) * -(100) == 0) by (rewrite Hoff, Hsc; ring).
  rewrite annotated_severity_at, row_risk, row_status, row_decision.
  fold scores. rewrite Hs. cbn [option_map].
  rewrite (round_comp _ 0 2 Hd).
  change (np.round 0 2) with 0.
  repeat split.
  replace (Qltb (- s - sklearn.offset_ E m) 0) with false; [reflexivity |].
  symmetry. apply Qltb_ge. rewrite Hoff, Hsc. lra.
Qed.

(** [demo_same]: its fourth row. *)
Lemma equal_scores_are_all_normal_witness :
  app.status_at
    (app.frame _ (snd (app.call first_column_scorer demo_same 0%nat))) 3
  = Some app.Normal.
Proof.
  refine (proj1 (equal_scores_are_all_normal first_column_scorer demo_same 0%nat
                   (sklearn.mkFitted first_column_scorer 0%nat (-(7)))
                   1%nat _ _ 7 3%nat _ _ _ _)).
  - vm_compute. reflexivity.
  - vm_compute. reflexivity.
  - intros s Hs. vm_compute in Hs.
    repeat (destruct Hs as [<- | Hs]; [reflexivity |]). contradiction.
  - cbn. lia.
Defined.

(** ** Scoring a frame that was scored before *)

Lemma names_assign_present key v cols :
  pd.lookup key cols <> None ->
  map fst (pd.assign key v cols) = map fst cols.
Proof.
  induction cols as [| [k s] rest IH]; cbn [pd.lookup pd.assign map fst]; intros Hin.
  - contradiction.
  - destruct (String.eqb k key); cbn [map fst]; [reflexivity |].
    f_equal. now apply IH.
Qed.

Lemma lookup_select key v cols :
  pd.lookup key cols = Some v ->
  pd.is_number v = true ->
  pd.lookup key (filter (fun c => pd.is_number (snd c)) cols) = Some v.
Proof.
  intros Hlook Hnum.
  induction cols as [| [k s] rest IH]; cbn [pd.lookup filter snd] in *.
  - discriminate.
  - destruct (String.eqb k key) eqn:Hk.
    + injection Hlook as ->. rewrite Hnum. cbn [pd.lookup]. now rewrite Hk.
    + destruct (pd.is_number s); cbn [pd.lookup]; [rewrite Hk |]; now apply IH.
Qed.

(** X14.  Scoring a frame that [detect_fraud] has already annotated, a
    downloaded report uploaded again for instance, adds no column: the
    three result columns are overwritten where they stand.  And the earlier
    "Risk Score" column, being numeric, is part of the table the second
    forest is fitted on. *)
Theorem scoring_again_overwrites_in_place :
  forall (E : Estimator) df rs result w rs2 result2 w2,
    app.call E df rs = (inr result, w) ->
    app.call E result rs2 = (inr result2, w2) ->
    map fst (pd.columns result2) = map fst (pd.columns result) /\
    pd.index result2 = pd.index df /\
    exists risk,
      pd.lookup "Risk Score" (pd.columns result) = Some (pd.Float64 risk) /\
      pd.lookup "Risk Score" (pd.columns (pd.select_dtypes_number result))
      = Some (pd.Float64 risk).
Proof.
  intros E df rs result w rs2 result2 w2 Hcall1 Hcall2.
  destruct (call_inversion E _ _ _ _ Hcall2) as (m2 & rs2' & _ & _ & -> & _).
  destruct (call_inversion E _ _ _ _ Hcall1) as (m1 & rs1' & _ & _ & Hres & _).
  pose proof (annotated_risk df (app.risk_scores E m1 (pd.select_dtypes_number df))
                (sklearn.predict E m1 (pd.select_dtypes_number df))) as Hrisk.
  pose proof (annotated_severity df (app.risk_scores E m1 (pd.select_dtypes_number df))
                (sklearn.predict E m1 (pd.select_dtypes_number df))) as Hsev.
  pose proof (annotated_status df (app.risk_scores E m1 (pd.select_dtypes_number df))
                (sklearn.predict E m1 (pd.select_dtypes_number df))) as Hstat.
  rewrite <- Hres in Hrisk, Hsev, Hstat.
  split; [| split].
  - unfold app.annotated at 1. cbn [pd.columns].
    rewrite names_assign_present.
    + rewrite names_assign_present.
      * apply names_assign_present. now rewrite Hrisk.
      * rewrite lookup_assign_other by discriminate. now rewrite Hsev.
    + rewrite !lookup_assign_other by discriminate. now rewrite Hstat.
  - cbn [app.annotated pd.index]. now rewrite Hres.
  - eexists. split; [exact Hrisk |].
    cbn [pd.select_dtypes_number pd.columns]. now apply lookup_select.
Qed.

(** [demo], scored twice. *)
Lemma scoring_again_overwrites_in_place_witness :
  map fst
    (pd.columns
       (app.frame _
          (snd (app.call first_column_scorer
                  (app.frame _ (snd (app.call first_column_scorer demo 0%nat)))
                  1%nat))))
  = ["who"; "amount"; "Risk Score"; "Severity"; "Status"].
Proof.
  refine (proj1 (scoring_again_overwrites_in_place first_column_scorer demo 0%nat
                   (app.frame _ (snd (app.call first_column_scorer demo 0%nat)))
                   (snd (app.call first_column_scorer demo 0%nat))
                   1%nat _ _ _ _)).
  - vm_compute. reflexivity.
  - vm_compute. reflexivity.
Defined.
